(** * The SQLite state cache of the MEGA SDK (src/db/sqlite.cpp)

    A shallow embedding of [SqliteDbAccess] and [SqliteDbTable] together
    with a small relational engine that interprets exactly the SQL
    statements the file sends to SQLite, followed by the properties of
    the persistent table that are checked against it. *)

From Stdlib Require Import ZArith String List Bool Lia.
From stdpp Require Import base gmap strings list fin_maps.

Local Open Scope Z_scope.
Local Open Scope string_scope.

(** ** Machine integers *)

(** [handle] is a 64-bit unsigned integer; SQLite stores 64-bit signed
    integers, and [sqlite3_column_int] narrows to a 32-bit [int]. *)
Definition handle := Z.

Definition to_int64 (z : Z) : Z := (z + 2^63) mod 2^64 - 2^63.
Definition to_uint64 (z : Z) : Z := z mod 2^64.
Definition to_int (z : Z) : Z := (z + 2^31) mod 2^32 - 2^31.

(** ** The storage engine *)

Module Sqlite.

(** Storage classes of a cell. *)
Inductive value :=
| NULL
| INTEGER (z : Z)
| TEXT (s : string)
| BLOB (b : string).

Inductive rc :=
| SQLITE_OK
| SQLITE_ERROR
| SQLITE_CONSTRAINT
| SQLITE_MISMATCH
| SQLITE_RANGE
| SQLITE_ROW
| SQLITE_DONE.

(** A table has an INTEGER PRIMARY KEY column (the rowid) and further
    columns, each with its NOT NULL flag.  Rows are kept in rowid
    order, which is the order of a table scan. *)
Record table := {
  pk : string;
  columns : list (string * bool);
  rows : list (Z * list value)
}.

(** A database file: its tables by name. *)
Abbreviation database := (gmap string table).

(** An open connection: the image it works on and, inside a
    transaction, the image to return to on ROLLBACK. *)
Record sqlite3 := {
  image : database;
  journal : option database
}.

(** *** The SQL fragment used by the cache *)

Inductive term :=
| Col (c : string)
| Param (i : nat)          (* the i-th [?], counted from 1 *)
| Int (z : Z).

Inductive cond :=
| Eq (a b : term)
| And (p q : cond)
| Or (p q : cond)
| IsNull (a : term)
| IsNotNull (a : term).

Inductive sql :=
| SELECT (c : string) (t : string) (w : option cond)
| SELECT_COUNT (t : string) (w : option cond)
| SELECT_name_FROM_sqlite_master (name : string)
| INSERT_OR_REPLACE (t : string) (cols : list string)
| DELETE_FROM (t : string) (w : option cond)
| CREATE_TABLE_IF_NOT_EXISTS (t : string) (pkc : string) (cols : list (string * bool))
| BEGIN
| COMMIT
| ROLLBACK
| PRAGMA_journal_mode_WAL.

(** A prepared statement: its text, the bound parameters, the rowid of
    the row it stands on and the first column of that row. *)
Record sqlite3_stmt := {
  text : sql;
  binds : list value;
  pos : option Z;
  current : option value
}.

(** *** Expressions *)

Fixpoint col_index (c : string) (cols : list (string * bool)) : option nat :=
  match cols with
  | [] => None
  | (n, _) :: cols' =>
      if String.eqb c n then Some O
      else option_map S (col_index c cols')
  end.

Definition column_value (tb : table) (r : Z * list value) (c : string) : value :=
  if String.eqb c (pk tb) then INTEGER (fst r)
  else match col_index c (columns tb) with
       | Some i => List.nth i (snd r) NULL
       | None => NULL
       end.

Definition eval_term (tb : table) (bs : list value) (r : Z * list value)
    (t : term) : value :=
  match t with
  | Col c => column_value tb r c
  | Param i => List.nth (Nat.pred i) bs NULL
  | Int z => INTEGER z
  end.

(** Comparison is three-valued: it is unknown as soon as one side is
    NULL, and values of different storage classes are never equal. *)
Definition sql_eq (a b : value) : option bool :=
  match a, b with
  | NULL, _ => None
  | _, NULL => None
  | INTEGER x, INTEGER y => Some (Z.eqb x y)
  | TEXT x, TEXT y => Some (String.eqb x y)
  | BLOB x, BLOB y => Some (String.eqb x y)
  | _, _ => Some false
  end.

Definition sql_and (a b : option bool) : option bool :=
  match a, b with
  | Some false, _ => Some false
  | _, Some false => Some false
  | Some true, Some true => Some true
  | _, _ => None
  end.

Definition sql_or (a b : option bool) : option bool :=
  match a, b with
  | Some true, _ => Some true
  | _, Some true => Some true
  | Some false, Some false => Some false
  | _, _ => None
  end.

Definition is_null (v : value) : bool :=
  match v with NULL => true | _ => false end.

Fixpoint eval_cond (tb : table) (bs : list value) (r : Z * list value)
    (p : cond) : option bool :=
  match p with
  | Eq a b => sql_eq (eval_term tb bs r a) (eval_term tb bs r b)
  | And p q => sql_and (eval_cond tb bs r p) (eval_cond tb bs r q)
  | Or p q => sql_or (eval_cond tb bs r p) (eval_cond tb bs r q)
  | IsNull a => Some (is_null (eval_term tb bs r a))
  | IsNotNull a => Some (negb (is_null (eval_term tb bs r a)))
  end.

(** A WHERE clause keeps the rows on which it is true. *)
Definition selects (tb : table) (bs : list value) (w : option cond)
    (r : Z * list value) : bool :=
  match w with
  | None => true
  | Some p => match eval_cond tb bs r p with Some true => true | _ => false end
  end.

(** *** Preparing a statement *)

Definition known_column (tb : table) (c : string) : bool :=
  String.eqb c (pk tb) ||
  match col_index c (columns tb) with Some _ => true | None => false end.

Definition term_ok (tb : table) (t : term) : bool :=
  match t with
  | Col c => known_column tb c
  | _ => true
  end.

Fixpoint cond_ok (tb : table) (p : cond) : bool :=
  match p with
  | Eq a b => term_ok tb a && term_ok tb b
  | And p q | Or p q => cond_ok tb p && cond_ok tb q
  | IsNull a | IsNotNull a => term_ok tb a
  end.

Definition where_ok (tb : table) (w : option cond) : bool :=
  match w with None => true | Some p => cond_ok tb p end.

Definition term_params (t : term) : nat :=
  match t with Param i => i | _ => O end.

Fixpoint cond_params (p : cond) : nat :=
  match p with
  | Eq a b => Nat.max (term_params a) (term_params b)
  | And p q | Or p q => Nat.max (cond_params p) (cond_params q)
  | IsNull a | IsNotNull a => term_params a
  end.

Definition where_params (w : option cond) : nat :=
  match w with None => O | Some p => cond_params p end.

Definition nparams (q : sql) : nat :=
  match q with
  | SELECT _ _ w | SELECT_COUNT _ w | DELETE_FROM _ w => where_params w
  | INSERT_OR_REPLACE _ cols => List.length cols
  | _ => O
  end.

(** Compilation fails ("no such table", "no such column") when the
    statement names something the schema does not have. *)
Definition compiles (d : database) (q : sql) : bool :=
  match q with
  | SELECT c t w =>
      match d !! t with
      | Some tb => known_column tb c && where_ok tb w
      | None => false
      end
  | SELECT_COUNT t w | DELETE_FROM t w =>
      match d !! t with
      | Some tb => where_ok tb w
      | None => false
      end
  | INSERT_OR_REPLACE t cols =>
      match d !! t with
      | Some tb => forallb (known_column tb) cols
      | None => false
      end
  | _ => true
  end.

Definition sqlite3_prepare (c : sqlite3) (q : sql) : rc * option sqlite3_stmt :=
  if compiles (image c) q
  then (SQLITE_OK,
        Some {| text := q; binds := List.repeat NULL (nparams q);
                pos := None; current := None |})
  else (SQLITE_ERROR, None).

(** *** Binding parameters *)

Definition bind (s : sqlite3_stmt) (i : nat) (v : value) : rc * sqlite3_stmt :=
  if ((0 <? i) && (i <=? List.length (binds s)))%nat
  then (SQLITE_OK,
        {| text := text s; binds := <[Nat.pred i := v]> (binds s);
           pos := pos s; current := current s |})
  else (SQLITE_RANGE, s).

Definition sqlite3_bind_int (s : sqlite3_stmt) (i : nat) (z : Z) :=
  bind s i (INTEGER z).

Definition sqlite3_bind_int64 (s : sqlite3_stmt) (i : nat) (z : Z) :=
  bind s i (INTEGER z).

(** A null pointer binds NULL, any other pointer the bytes it points
    to, also when there are none of them. *)
Definition sqlite3_bind_blob (s : sqlite3_stmt) (i : nat) (p : option string) :=
  bind s i (match p with Some b => BLOB b | None => NULL end).

Definition sqlite3_bind_text (s : sqlite3_stmt) (i : nat) (p : option string) :=
  bind s i (match p with Some b => TEXT b | None => NULL end).

(** *** Running a statement *)

Definition with_rows (tb : table) (rs : list (Z * list value)) : table :=
  {| pk := pk tb; columns := columns tb; rows := rs |}.

(** INSERT OR REPLACE on the rowid: the row with that rowid is replaced
    where it stands, a new rowid takes its place in rowid order. *)
Fixpoint upsert (k : Z) (v : list value) (rs : list (Z * list value))
    : list (Z * list value) :=
  match rs with
  | [] => [(k, v)]
  | (k', v') :: rs' =>
      if Z.ltb k k' then (k, v) :: rs
      else if Z.eqb k k' then (k, v) :: rs'
      else (k', v') :: upsert k v rs'
  end.

Fixpoint index_of (c : string) (cols : list string) : option nat :=
  match cols with
  | [] => None
  | n :: cols' =>
      if String.eqb c n then Some O else option_map S (index_of c cols')
  end.

(** The value an INSERT gives to column [c]: the parameter standing at
    the position of [c] in the column list, NULL for unlisted columns. *)
Definition inserted (cols : list string) (bs : list value) (c : string) : value :=
  match index_of c cols with
  | Some i => List.nth i bs NULL
  | None => NULL
  end.

Definition new_row (tb : table) (cols : list string) (bs : list value)
    : list value :=
  List.map (fun cn => inserted cols bs (fst cn)) (columns tb).

Definition not_null_ok (tb : table) (vals : list value) : bool :=
  forallb (fun cv => negb (snd (fst cv) && is_null (snd cv)))
          (List.combine (columns tb) vals).

Definition after (p : option Z) (k : Z) : bool :=
  match p with
  | None => true
  | Some q => Z.ltb q k
  end.

(** The row a scan moves to: the first one past the current rowid that
    the WHERE clause selects, looked up in the table as it is now. *)
Definition next_row (tb : table) (bs : list value) (w : option cond)
    (p : option Z) : option (Z * list value) :=
  List.find (fun r => after p (fst r) && selects tb bs w r) (rows tb).

Definition moved (s : sqlite3_stmt) (p : option Z) (v : option value)
    : sqlite3_stmt :=
  {| text := text s; binds := binds s; pos := p; current := v |}.

Definition set_image (c : sqlite3) (d : database) : sqlite3 :=
  {| image := d; journal := journal c |}.

Definition sqlite3_step (c : sqlite3) (s : sqlite3_stmt)
    : rc * sqlite3 * sqlite3_stmt :=
  match text s with
  | SELECT col t w =>
      match image c !! t with
      | None => (SQLITE_ERROR, c, s)
      | Some tb =>
          match next_row tb (binds s) w (pos s) with
          | Some r =>
              (SQLITE_ROW, c, moved s (Some (fst r)) (Some (column_value tb r col)))
          | None => (SQLITE_DONE, c, moved s (pos s) None)
          end
      end
  | SELECT_COUNT t w =>
      match image c !! t with
      | None => (SQLITE_ERROR, c, s)
      | Some tb =>
          match pos s with
          | None =>
              let n := List.length (List.filter (selects tb (binds s) w) (rows tb)) in
              (SQLITE_ROW, c, moved s (Some 0) (Some (INTEGER (Z.of_nat n))))
          | Some _ => (SQLITE_DONE, c, moved s (pos s) None)
          end
      end
  | SELECT_name_FROM_sqlite_master name =>
      match image c !! name, pos s with
      | Some _, None => (SQLITE_ROW, c, moved s (Some 0) (Some (TEXT name)))
      | _, _ => (SQLITE_DONE, c, moved s (pos s) None)
      end
  | INSERT_OR_REPLACE t cols =>
      match image c !! t with
      | None => (SQLITE_ERROR, c, s)
      | Some tb =>
          match inserted cols (binds s) (pk tb) with
          | INTEGER k =>
              let vals := new_row tb cols (binds s) in
              if not_null_ok tb vals
              then (SQLITE_DONE,
                    set_image c (<[t := with_rows tb (upsert k vals (rows tb))]> (image c)),
                    s)
              else (SQLITE_CONSTRAINT, c, s)
          | _ => (SQLITE_MISMATCH, c, s)
          end
      end
  | DELETE_FROM t w =>
      match image c !! t with
      | None => (SQLITE_ERROR, c, s)
      | Some tb =>
          let keep := List.filter (fun r => negb (selects tb (binds s) w r)) (rows tb) in
          (SQLITE_DONE, set_image c (<[t := with_rows tb keep]> (image c)), s)
      end
  | CREATE_TABLE_IF_NOT_EXISTS t pkc cols =>
      match image c !! t with
      | Some _ => (SQLITE_DONE, c, s)
      | None =>
          (SQLITE_DONE,
           set_image c (<[t := {| pk := pkc; columns := cols; rows := [] |}]> (image c)),
           s)
      end
  | BEGIN =>
      match journal c with
      | None => (SQLITE_DONE, {| image := image c; journal := Some (image c) |}, s)
      | Some _ => (SQLITE_ERROR, c, s)
      end
  | COMMIT =>
      match journal c with
      | Some _ => (SQLITE_DONE, {| image := image c; journal := None |}, s)
      | None => (SQLITE_ERROR, c, s)
      end
  | ROLLBACK =>
      match journal c with
      | Some d => (SQLITE_DONE, {| image := d; journal := None |}, s)
      | None => (SQLITE_ERROR, c, s)
      end
  | PRAGMA_journal_mode_WAL => (SQLITE_DONE, c, s)
  end.

(** [sqlite3_exec] compiles the statement and runs it to its end. *)
Definition sqlite3_exec (c : sqlite3) (q : sql) : rc * sqlite3 :=
  match sqlite3_prepare c q with
  | (SQLITE_OK, Some s) =>
      match sqlite3_step c s with
      | (SQLITE_DONE, c', _) => (SQLITE_OK, c')
      | (SQLITE_ROW, c', _) => (SQLITE_OK, c')
      | (e, c', _) => (e, c')
      end
  | (e, _) => (e, c)
  end.

(** *** Reading the current row *)

(** The conversions the engine applies when a column is read at another
    type than it is stored at are its own; they are taken as given. *)
Class Casts := {
  int64_to_text : Z -> string;
  text_to_int64 : string -> Z
}.

Definition value_blob `{Casts} (v : value) : string :=
  match v with
  | BLOB b => b
  | TEXT t => t
  | INTEGER z => int64_to_text z
  | NULL => ""
  end.

Definition value_int64 `{Casts} (v : value) : Z :=
  match v with
  | INTEGER z => z
  | BLOB b => text_to_int64 b
  | TEXT t => text_to_int64 t
  | NULL => 0
  end.

(** [sqlite3_column_blob] with [sqlite3_column_bytes]: the bytes of
    column 0 of the current row. *)
Definition sqlite3_column_blob `{Casts} (s : sqlite3_stmt) : string :=
  match current s with
  | Some v => value_blob v
  | None => ""
  end.

Definition sqlite3_column_int64 `{Casts} (s : sqlite3_stmt) : Z :=
  match current s with
  | Some v => value_int64 v
  | None => 0
  end.

Definition sqlite3_column_int `{Casts} (s : sqlite3_stmt) : Z :=
  to_int (sqlite3_column_int64 s).

(** The committed contents of the file behind a connection. *)
Definition committed (c : sqlite3) : database :=
  match journal c with
  | Some d => d
  | None => image c
  end.

End Sqlite.

Import Sqlite.

(** ** What the cache takes from the rest of the SDK *)

(** The random generator, the base64 codec, the cipher and the length of
    a handle key are defined elsewhere in the SDK. *)
Class Externals := {
  HANDLEKEYLENGTH : nat;
  SymmCipher : Type;
  PrnGen : Type;
  (* PrnGen::genblock(buf, len): [len] fresh bytes *)
  PrnGen_genblock : PrnGen -> nat -> string * PrnGen;
  (* Base64::btoa(b, blen, a): the characters written to [a] *)
  Base64_btoa : string -> string;
  (* Base64::atob(a, b, blen): the bytes written to [b], given its bound *)
  Base64_atob : string -> nat -> string;
  (* PaddedCBC::encrypt(&data, key): the new contents of [data] *)
  PaddedCBC_encrypt : string -> SymmCipher -> string
}.

(** ** Strings and heap blocks *)

Definition NUL : Ascii.ascii := Ascii.zero.

Fixpoint string_of_list (l : list Ascii.ascii) : string :=
  match l with
  | [] => EmptyString
  | a :: l' => String a (string_of_list l')
  end.

Fixpoint string_take (n : nat) (s : string) : string :=
  match n, s with
  | S n', String a s' => String a (string_take n' s')
  | _, _ => EmptyString
  end.

(** [std::string::resize]: cut, or fill with NUL characters. *)
Definition string_resize (n : nat) (s : string) : string :=
  string_take n s +:+ string_of_list (List.repeat NUL (n - String.length s)).

(** Writing [src] at the start of the buffer [dst]; the buffer keeps its
    length. *)
Definition store (dst src : string) : string :=
  string_take (String.length dst)
    (src +:+ String.substring (String.length src)
                              (String.length dst - String.length src) dst).

(** A block obtained from [malloc]: its length and the bytes that have
    been written from its start on.  Bytes of the block that were not
    written are indeterminate.  When more bytes were written than the
    block is long, the write ran past the end of the block. *)
Record block := {
  size : nat;
  written : string
}.

Definition malloc (n : nat) : block := {| size := n; written := "" |}.

(** Writing [src] from the start of the block on, all of it: nothing
    bounds the write by the length of the block. *)
Definition fill (b : block) (src : string) : block :=
  {| size := size b; written := src |}.

(** The bytes written to the block lie inside it.  A program that
    overruns a block has no defined behaviour from there on, so what
    is stated about an object that holds a block is stated for blocks
    that were not overrun. *)
Definition within (b : block) : Prop :=
  (String.length (written b) <= size b)%nat.

(** ** The file system *)

(** A path leads to the committed contents of the database file stored
    there.  The store has one writer: a connection works on its own
    image of the file, and the file holds the committed image again when
    the connection is closed. *)
Abbreviation filesystem := (gmap string database).

Definition sqlite3_open (fs : filesystem) (path : string) : rc * sqlite3 :=
  (SQLITE_OK, {| image := default ∅ (fs !! path); journal := None |}).

Definition sqlite3_close (c : sqlite3) (path : string) (fs : filesystem)
    : filesystem :=
  <[path := committed c]> fs.

(** [FileSystemAccess::unlinklocal] on the local form of a path. *)
Definition path2local (path : string) : string := path.

Definition unlinklocal (localpath : string) (fs : filesystem) : filesystem :=
  delete localpath fs.

Definition sqlite3_reset (s : sqlite3_stmt) : sqlite3_stmt := moved s None None.

(** ** SqliteDbAccess and SqliteDbTable *)

Section Cache.

Context `{Externals} `{Casts}.

Record SqliteDbAccess := {
  dbpath : string
}.

Record SqliteDbTable := {
  db : option sqlite3;
  pStmt : option sqlite3_stmt;
  dbfile : string;
  key : SymmCipher;
  hkey : option block;
  phkey : option block
}.

Definition set_db (t : SqliteDbTable) (c : option sqlite3) : SqliteDbTable :=
  {| db := c; pStmt := pStmt t; dbfile := dbfile t; key := key t;
     hkey := hkey t; phkey := phkey t |}.

Definition set_pStmt (t : SqliteDbTable) (s : option sqlite3_stmt) : SqliteDbTable :=
  {| db := db t; pStmt := s; dbfile := dbfile t; key := key t;
     hkey := hkey t; phkey := phkey t |}.

Definition set_hkey (t : SqliteDbTable) (b : block) : SqliteDbTable :=
  {| db := db t; pStmt := pStmt t; dbfile := dbfile t; key := key t;
     hkey := Some b; phkey := phkey t |}.

Definition set_phkey (t : SqliteDbTable) (b : block) : SqliteDbTable :=
  {| db := db t; pStmt := pStmt t; dbfile := dbfile t; key := key t;
     hkey := hkey t; phkey := Some b |}.

(** SqliteDbTable::SqliteDbTable *)
Definition SqliteDbTable_new (cdb : sqlite3) (filepath : string)
    (k : SymmCipher) : SqliteDbTable :=
  {| db := Some cdb; pStmt := None; dbfile := filepath; key := k;
     hkey := None; phkey := None |}.

(** *** The statements of the file *)

(* "CREATE TABLE IF NOT EXISTS init (id INTEGER PRIMARY KEY NOT NULL, content BLOB NOT NULL)" *)
Definition create_init : sql :=
  CREATE_TABLE_IF_NOT_EXISTS "init" "id" [("content", true)].

(* "CREATE TABLE IF NOT EXISTS nodes (nodehandle INTEGER PRIMARY KEY NOT NULL,
    parenthandle INTEGER NOT NULL, fingerprint BLOB, attrstring TEXT,
    shared INTEGER NOT NULL, node BLOB NOT NULL)" *)
Definition create_nodes : sql :=
  CREATE_TABLE_IF_NOT_EXISTS "nodes" "nodehandle"
    [("parenthandle", true); ("fingerprint", false); ("attrstring", false);
     ("shared", true); ("node", true)].

(* "CREATE TABLE IF NOT EXISTS users (userhandle INTEGER PRIMARY KEY NOT NULL, user BLOB NOT NULL)" *)
Definition create_users : sql :=
  CREATE_TABLE_IF_NOT_EXISTS "users" "userhandle" [("user", true)].

(* "CREATE TABLE IF NOT EXISTS pcrs (id INTEGER PRIMARY KEY NOT NULL, pcr BLOB NOT NULL)" *)
Definition create_pcrs : sql :=
  CREATE_TABLE_IF_NOT_EXISTS "pcrs" "id" [("pcr", true)].

(* "INSERT OR REPLACE INTO init (id, content) VALUES (?, ?)" *)
Definition insert_init : sql := INSERT_OR_REPLACE "init" ["id"; "content"].

(* "SELECT content FROM init WHERE id = ?" *)
Definition select_init : sql :=
  SELECT "content" "init" (Some (Eq (Col "id") (Param 1))).

(** AND binds tighter than OR: "a AND b OR c" is "(a AND b) OR c". *)

(* "SELECT nodehandle FROM nodes WHERE parenthandle = ? AND shared = 1 OR shared = 4" *)
Definition select_outshares_of : sql :=
  SELECT "nodehandle" "nodes"
    (Some (Or (And (Eq (Col "parenthandle") (Param 1)) (Eq (Col "shared") (Int 1)))
              (Eq (Col "shared") (Int 4)))).

(* "SELECT nodehandle FROM nodes WHERE shared = 1 OR shared = 4" *)
Definition select_outshares : sql :=
  SELECT "nodehandle" "nodes"
    (Some (Or (Eq (Col "shared") (Int 1)) (Eq (Col "shared") (Int 4)))).

(* "SELECT nodehandle FROM nodes WHERE parenthandle = ? AND shared = 3 OR shared = 4" *)
Definition select_pendingshares_of : sql :=
  SELECT "nodehandle" "nodes"
    (Some (Or (And (Eq (Col "parenthandle") (Param 1)) (Eq (Col "shared") (Int 3)))
              (Eq (Col "shared") (Int 4)))).

(* "SELECT nodehandle FROM nodes WHERE shared = 3 OR shared = 4" *)
Definition select_pendingshares : sql :=
  SELECT "nodehandle" "nodes"
    (Some (Or (Eq (Col "shared") (Int 3)) (Eq (Col "shared") (Int 4)))).

(** *** SqliteDbAccess::open *)

(** One handle key: random bytes, encoded, then encrypted. *)
Definition fresh_key (g : PrnGen) (k : SymmCipher) : string * PrnGen :=
  let '(hk, g') := PrnGen_genblock g HANDLEKEYLENGTH in
  let buf := string_resize (HANDLEKEYLENGTH * 4 / 3 + 3)%nat "" in
  let enc := Base64_btoa hk in
  let buf := string_resize (String.length enc) (store buf enc) in
  (PaddedCBC_encrypt buf k, g').

(** Step 5 of [open]: both keys are generated and saved, the second one
    only once the first is in its slot. *)
Definition provision (c : sqlite3) (g : PrnGen) (k : SymmCipher)
    : bool * sqlite3 * PrnGen :=
  let '(buf, g) := fresh_key g k in
  match sqlite3_prepare c insert_init with
  | (SQLITE_OK, Some stmt) =>
      match sqlite3_bind_int stmt 1 4 with
      | (SQLITE_OK, stmt) =>
          match sqlite3_bind_blob stmt 2 (Some buf) with
          | (SQLITE_OK, stmt) =>
              match sqlite3_step c stmt with
              | (SQLITE_DONE, c, stmt) =>
                  let '(buf, g) := fresh_key g k in
                  match sqlite3_prepare c insert_init with
                  | (SQLITE_OK, Some stmt) =>
                      match sqlite3_bind_int stmt 1 5 with
                      | (SQLITE_OK, stmt) =>
                          match sqlite3_bind_blob stmt 2 (Some buf) with
                          | (SQLITE_OK, stmt) =>
                              match sqlite3_step c stmt with
                              | (SQLITE_DONE, c, _) => (true, c, g)
                              | (_, c, _) => (false, c, g)
                              end
                          | _ => (false, c, g)
                          end
                      | _ => (false, c, g)
                      end
                  | _ => (false, c, g)
                  end
              | (_, c, _) => (false, c, g)
              end
          | _ => (false, c, g)
          end
      | _ => (false, c, g)
      end
  | _ => (false, c, g)
  end.

(** Step 0 of [open]: the store is fresh when sqlite_master has no table
    named init. *)
Definition table_exists (c : sqlite3) : bool :=
  match sqlite3_prepare c (SELECT_name_FROM_sqlite_master "init") with
  | (SQLITE_OK, Some stmt) =>
      match sqlite3_step c stmt with
      | (SQLITE_DONE, _, _) => false
      | _ => true
      end
  | _ => true
  end.

(** [open] returns the table, or nothing where the source returns NULL;
    a connection that is given up on such a path is never closed, and
    what it committed stays in the file. *)
Definition open (a : SqliteDbAccess) (fs : filesystem) (g : PrnGen)
    (name : string) (k : SymmCipher)
    : option SqliteDbTable * filesystem * PrnGen :=
  let dbdir := dbpath a +:+ "megaclient_statecache7_" +:+ name +:+ ".db" in
  match sqlite3_open fs dbdir with
  | (SQLITE_OK, c) =>
      let c := snd (sqlite3_exec c PRAGMA_journal_mode_WAL) in
      let tableExists := table_exists c in
      match sqlite3_exec c create_init with
      | (SQLITE_OK, c) =>
          match sqlite3_exec c create_nodes with
          | (SQLITE_OK, c) =>
              match sqlite3_exec c create_users with
              | (SQLITE_OK, c) =>
                  match sqlite3_exec c create_pcrs with
                  | (SQLITE_OK, c) =>
                      if negb tableExists then
                        match provision c g k with
                        | (true, c, g) =>
                            (Some (SqliteDbTable_new c dbdir k),
                             <[dbdir := committed c]> fs, g)
                        | (false, c, g) =>
                            (None, <[dbdir := committed c]> fs, g)
                        end
                      else
                        (Some (SqliteDbTable_new c dbdir k),
                         <[dbdir := committed c]> fs, g)
                  | (_, c) => (None, <[dbdir := committed c]> fs, g)
                  end
              | (_, c) => (None, <[dbdir := committed c]> fs, g)
              end
          | (_, c) => (None, <[dbdir := committed c]> fs, g)
          end
      | (_, c) => (None, <[dbdir := committed c]> fs, g)
      end
  | _ => (None, fs, g)
  end.

(** *** Transactions *)

(** SqliteDbTable::begin *)
Definition begin (t : SqliteDbTable) : SqliteDbTable :=
  match db t with
  | None => t
  | Some c => set_db t (Some (snd (sqlite3_exec c BEGIN)))
  end.

(** SqliteDbTable::commit *)
Definition commit (t : SqliteDbTable) : SqliteDbTable :=
  match db t with
  | None => t
  | Some c => set_db t (Some (snd (sqlite3_exec c COMMIT)))
  end.

(** SqliteDbTable::abort *)
Definition abort (t : SqliteDbTable) : SqliteDbTable :=
  match db t with
  | None => t
  | Some c => set_db t (Some (snd (sqlite3_exec c ROLLBACK)))
  end.

(** SqliteDbTable::~SqliteDbTable: what is left in the file system.
    The statement in [pStmt] is finalized, an open transaction is rolled
    back and the connection is closed. *)
Definition destroy (t : SqliteDbTable) (fs : filesystem) : filesystem :=
  match db t with
  | None => fs
  | Some _ =>
      match db (abort t) with
      | Some c => sqlite3_close c (dbfile t) fs
      | None => fs
      end
  end.

(** *** Reading *)

(** SqliteDbTable::readhkey *)
Definition readhkey (t : SqliteDbTable) : bool * SqliteDbTable :=
  match db t with
  | None => (false, t)
  | Some c =>
      match sqlite3_prepare c select_init with
      | (SQLITE_OK, Some stmt) =>
          match sqlite3_bind_int stmt 1 4 with
          | (SQLITE_OK, stmt) =>
              match sqlite3_step c stmt with
              | (SQLITE_ROW, _, stmt) =>
                  let buf := sqlite3_column_blob stmt in
                  let t := set_hkey t (fill (malloc HANDLEKEYLENGTH)
                                            (Base64_atob buf (String.length buf))) in
                  match sqlite3_prepare c select_init with
                  | (SQLITE_OK, Some stmt) =>
                      match sqlite3_bind_int stmt 1 5 with
                      | (SQLITE_OK, stmt) =>
                          match sqlite3_step c stmt with
                          | (SQLITE_ROW, _, stmt) =>
                              let buf := sqlite3_column_blob stmt in
                              (true,
                               set_phkey t (fill (malloc HANDLEKEYLENGTH)
                                                 (Base64_atob buf (String.length buf))))
                          | _ => (false, t)
                          end
                      | _ => (false, t)
                      end
                  | _ => (false, t)
                  end
              | _ => (false, t)
              end
          | _ => (false, t)
          end
      | _ => (false, t)
      end
  end.

(** The shape shared by the four payload readers: prepare, bind one
    parameter, step once, and assign [data] only on SQLITE_ROW. *)
Definition read_one (c : sqlite3) (q : sql)
    (bind1 : sqlite3_stmt -> rc * sqlite3_stmt) (data : string)
    : bool * string :=
  match sqlite3_prepare c q with
  | (SQLITE_OK, Some stmt) =>
      match bind1 stmt with
      | (SQLITE_OK, stmt) =>
          match sqlite3_step c stmt with
          | (SQLITE_ROW, _, stmt) => (true, sqlite3_column_blob stmt)
          | _ => (false, data)
          end
      | _ => (false, data)
      end
  | _ => (false, data)
  end.

(** SqliteDbTable::getscsn *)
Definition getscsn (data : string) (t : SqliteDbTable) : bool * string :=
  match db t with
  | None => (false, data)
  | Some c => read_one c select_init (fun s => sqlite3_bind_int s 1 0) data
  end.

(** SqliteDbTable::getrootnode *)
Definition getrootnode (index : Z) (data : string) (t : SqliteDbTable)
    : bool * string :=
  match db t with
  | None => (false, data)
  | Some c => read_one c select_init (fun s => sqlite3_bind_int s 1 index) data
  end.

(* "SELECT node FROM nodes WHERE nodehandle = ?" *)
Definition select_node_by_handle : sql :=
  SELECT "node" "nodes" (Some (Eq (Col "nodehandle") (Param 1))).

(* "SELECT node FROM nodes WHERE fingerprint = ?" *)
Definition select_node_by_fingerprint : sql :=
  SELECT "node" "nodes" (Some (Eq (Col "fingerprint") (Param 1))).

(** SqliteDbTable::getnodebyhandle *)
Definition getnodebyhandle (h : handle) (data : string) (t : SqliteDbTable)
    : bool * string :=
  match db t with
  | None => (false, data)
  | Some c =>
      read_one c select_node_by_handle
        (fun s => sqlite3_bind_int64 s 1 (to_int64 h)) data
  end.

(** SqliteDbTable::getnodebyfingerprint *)
Definition getnodebyfingerprint (fp : string) (data : string)
    (t : SqliteDbTable) : bool * string :=
  match db t with
  | None => (false, data)
  | Some c =>
      read_one c select_node_by_fingerprint
        (fun s => sqlite3_bind_blob s 1 (Some fp)) data
  end.

(** The shape shared by the three counters: [*count = 0], then prepare,
    bind the parent, step once and read the count as an [int]. *)
Definition count_query (c : sqlite3) (q : sql) (ph : handle) : bool * Z :=
  match sqlite3_prepare c q with
  | (SQLITE_OK, Some stmt) =>
      match sqlite3_bind_int64 stmt 1 (to_int64 ph) with
      | (SQLITE_OK, stmt) =>
          match sqlite3_step c stmt with
          | (SQLITE_ROW, _, stmt) => (true, sqlite3_column_int stmt)
          | _ => (false, 0)
          end
      | _ => (false, 0)
      end
  | _ => (false, 0)
  end.

(* "SELECT COUNT( * ) FROM nodes WHERE parenthandle = ?" *)
Definition count_children : sql :=
  SELECT_COUNT "nodes" (Some (Eq (Col "parenthandle") (Param 1))).

(* "SELECT COUNT( * ) FROM nodes WHERE parenthandle = ? AND fingerprint IS NOT NULL" *)
Definition count_child_files : sql :=
  SELECT_COUNT "nodes"
    (Some (And (Eq (Col "parenthandle") (Param 1)) (IsNotNull (Col "fingerprint")))).

(* "SELECT COUNT( * ) FROM nodes WHERE parenthandle = ? AND fingerprint IS NULL" *)
Definition count_child_folders : sql :=
  SELECT_COUNT "nodes"
    (Some (And (Eq (Col "parenthandle") (Param 1)) (IsNull (Col "fingerprint")))).

(** SqliteDbTable::getnumchildrenquery *)
Definition getnumchildrenquery (ph : handle) (count : Z) (t : SqliteDbTable)
    : bool * Z :=
  match db t with
  | None => (false, count)
  | Some c => count_query c count_children ph
  end.

(** SqliteDbTable::getnumchildfilesquery *)
Definition getnumchildfilesquery (ph : handle) (count : Z) (t : SqliteDbTable)
    : bool * Z :=
  match db t with
  | None => (false, count)
  | Some c => count_query c count_child_files ph
  end.

(** SqliteDbTable::getnumchildfoldersquery *)
Definition getnumchildfoldersquery (ph : handle) (count : Z) (t : SqliteDbTable)
    : bool * Z :=
  match db t with
  | None => (false, count)
  | Some c => count_query c count_child_folders ph
  end.

(** *** The cursor *)

(** The eight [rewind...] members share one shape: a statement left in
    [pStmt] is reset, then [pStmt] receives the newly prepared statement
    (nothing when it does not compile), and the parent, if the selector
    has one, is bound to it. *)
Definition rewind (q : sql) (ph : option handle) (t : SqliteDbTable)
    : SqliteDbTable :=
  match db t with
  | None => t
  | Some c =>
      let t := set_pStmt t (option_map sqlite3_reset (pStmt t)) in
      let t := set_pStmt t (snd (sqlite3_prepare c q)) in
      match pStmt t, ph with
      | Some stmt, Some p =>
          set_pStmt t (Some (snd (sqlite3_bind_int64 stmt 1 (to_int64 p))))
      | _, _ => t
      end
  end.

(** SqliteDbTable::rewinduser: "SELECT user FROM users" *)
Definition rewinduser : SqliteDbTable -> SqliteDbTable :=
  rewind (SELECT "user" "users" None) None.

(** SqliteDbTable::rewindpcr: "SELECT pcr FROM pcrs" *)
Definition rewindpcr : SqliteDbTable -> SqliteDbTable :=
  rewind (SELECT "pcr" "pcrs" None) None.

(** SqliteDbTable::rewindhandleschildren:
    "SELECT nodehandle FROM nodes WHERE parenthandle = ?" *)
Definition rewindhandleschildren (ph : handle) : SqliteDbTable -> SqliteDbTable :=
  rewind (SELECT "nodehandle" "nodes" (Some (Eq (Col "parenthandle") (Param 1))))
         (Some ph).

(** SqliteDbTable::rewindhandlesencryptednodes:
    "SELECT nodehandle FROM nodes WHERE attrstring IS NOT NULL" *)
Definition rewindhandlesencryptednodes : SqliteDbTable -> SqliteDbTable :=
  rewind (SELECT "nodehandle" "nodes" (Some (IsNotNull (Col "attrstring")))) None.

(** SqliteDbTable::rewindhandlesoutshares(handle) *)
Definition rewindhandlesoutshares_of (ph : handle) : SqliteDbTable -> SqliteDbTable :=
  rewind select_outshares_of (Some ph).

(** SqliteDbTable::rewindhandlesoutshares() *)
Definition rewindhandlesoutshares : SqliteDbTable -> SqliteDbTable :=
  rewind select_outshares None.

(** SqliteDbTable::rewindhandlespendingshares(handle) *)
Definition rewindhandlespendingshares_of (ph : handle) : SqliteDbTable -> SqliteDbTable :=
  rewind select_pendingshares_of (Some ph).

(** SqliteDbTable::rewindhandlespendingshares() *)
Definition rewindhandlespendingshares : SqliteDbTable -> SqliteDbTable :=
  rewind select_pendingshares None.

(** SqliteDbTable::next *)
Definition next (data : string) (t : SqliteDbTable)
    : bool * string * SqliteDbTable :=
  match db t with
  | None => (false, data, t)
  | Some c =>
      match pStmt t with
      | None => (false, data, t)
      | Some stmt =>
          match sqlite3_step c stmt with
          | (SQLITE_ROW, c, stmt) =>
              (true, sqlite3_column_blob stmt,
               set_pStmt (set_db t (Some c)) (Some stmt))
          | (_, c, _) => (false, data, set_pStmt (set_db t (Some c)) None)
          end
      end
  end.

(** SqliteDbTable::nexthandle *)
Definition nexthandle (h : handle) (t : SqliteDbTable)
    : bool * handle * SqliteDbTable :=
  match db t with
  | None => (false, h, t)
  | Some c =>
      match pStmt t with
      | None => (false, h, t)
      | Some stmt =>
          match sqlite3_step c stmt with
          | (SQLITE_ROW, c, stmt) =>
              (true, to_uint64 (sqlite3_column_int64 stmt),
               set_pStmt (set_db t (Some c)) (Some stmt))
          | (_, c, _) => (false, h, set_pStmt (set_db t (Some c)) None)
          end
      end
  end.

(** *** Writing *)

(** The shape shared by the writers: prepare, bind every parameter in
    turn, step once; the result is true on SQLITE_DONE only. *)
Fixpoint bind_all (stmt : sqlite3_stmt)
    (bs : list (sqlite3_stmt -> rc * sqlite3_stmt)) : option sqlite3_stmt :=
  match bs with
  | [] => Some stmt
  | b :: bs' =>
      match b stmt with
      | (SQLITE_OK, stmt) => bind_all stmt bs'
      | _ => None
      end
  end.

Definition write_one (q : sql) (bs : list (sqlite3_stmt -> rc * sqlite3_stmt))
    (t : SqliteDbTable) : bool * SqliteDbTable :=
  match db t with
  | None => (false, t)
  | Some c =>
      match sqlite3_prepare c q with
      | (SQLITE_OK, Some stmt) =>
          match bind_all stmt bs with
          | Some stmt =>
              match sqlite3_step c stmt with
              | (SQLITE_DONE, c, _) => (true, set_db t (Some c))
              | (_, c, _) => (false, set_db t (Some c))
              end
          | None => (false, t)
          end
      | _ => (false, t)
      end
  end.

(** SqliteDbTable::putscsn; [data] stands for the [len] bytes at the
    pointer it is given. *)
Definition putscsn (data : string) : SqliteDbTable -> bool * SqliteDbTable :=
  write_one insert_init
    [fun s => sqlite3_bind_int s 1 0;
     fun s => sqlite3_bind_blob s 2 (Some data)].

(** SqliteDbTable::putrootnode *)
Definition putrootnode (index : Z) (data : string)
    : SqliteDbTable -> bool * SqliteDbTable :=
  write_one insert_init
    [fun s => sqlite3_bind_int s 1 index;
     fun s => sqlite3_bind_blob s 2 (Some data)].

(* "INSERT OR REPLACE INTO nodes (nodehandle, parenthandle, fingerprint,
    attrstring, shared, node) VALUES (?, ?, ?, ?, ?, ?)" *)
Definition insert_node : sql :=
  INSERT_OR_REPLACE "nodes"
    ["nodehandle"; "parenthandle"; "fingerprint"; "attrstring"; "shared"; "node"].

(** SqliteDbTable::putnode.  [attr] may be a null pointer; an empty
    fingerprint is bound as NULL. *)
Definition putnode (h ph : handle) (fp : string) (attr : option string)
    (shared : Z) (node : string) : SqliteDbTable -> bool * SqliteDbTable :=
  write_one insert_node
    [fun s => sqlite3_bind_int64 s 1 (to_int64 h);
     fun s => sqlite3_bind_int64 s 2 (to_int64 ph);
     fun s => sqlite3_bind_blob s 3
                (if Nat.eqb (String.length fp) 0 then None else Some fp);
     fun s => sqlite3_bind_text s 4 attr;
     fun s => sqlite3_bind_int s 5 shared;
     fun s => sqlite3_bind_blob s 6 (Some node)].

(** SqliteDbTable::putuser:
    "INSERT OR REPLACE INTO users (userhandle, user) VALUES (?, ?)" *)
Definition putuser (userhandle : handle) (user : string)
    : SqliteDbTable -> bool * SqliteDbTable :=
  write_one (INSERT_OR_REPLACE "users" ["userhandle"; "user"])
    [fun s => sqlite3_bind_int64 s 1 (to_int64 userhandle);
     fun s => sqlite3_bind_blob s 2 (Some user)].

(** SqliteDbTable::putpcr:
    "INSERT OR REPLACE INTO pcrs (id, pcr) VALUES (?, ?)" *)
Definition putpcr (id : handle) (pcr : string)
    : SqliteDbTable -> bool * SqliteDbTable :=
  write_one (INSERT_OR_REPLACE "pcrs" ["id"; "pcr"])
    [fun s => sqlite3_bind_int64 s 1 (to_int64 id);
     fun s => sqlite3_bind_blob s 2 (Some pcr)].

(** SqliteDbTable::delnode: "DELETE FROM nodes WHERE nodehandle = ?" *)
Definition delnode (h : handle) : SqliteDbTable -> bool * SqliteDbTable :=
  write_one (DELETE_FROM "nodes" (Some (Eq (Col "nodehandle") (Param 1))))
    [fun s => sqlite3_bind_int64 s 1 (to_int64 h)].

(** SqliteDbTable::delpcr: "DELETE FROM pcrs WHERE id = ?" *)
Definition delpcr (id : handle) : SqliteDbTable -> bool * SqliteDbTable :=
  write_one (DELETE_FROM "pcrs" (Some (Eq (Col "id") (Param 1))))
    [fun s => sqlite3_bind_int64 s 1 (to_int64 id)].

(** *** Lifecycle *)

(** SqliteDbTable::truncate: four statements, each run whatever became
    of the one before. *)
Definition truncate (t : SqliteDbTable) : SqliteDbTable :=
  match db t with
  | None => t
  | Some c =>
      let c := snd (sqlite3_exec c (DELETE_FROM "scsn" None)) in
      let c := snd (sqlite3_exec c (DELETE_FROM "nodes" None)) in
      let c := snd (sqlite3_exec c (DELETE_FROM "users" None)) in
      let c := snd (sqlite3_exec c (DELETE_FROM "pcrs" None)) in
      set_db t (Some c)
  end.

(** SqliteDbTable::remove.  [pStmt] is finalized but keeps its value;
    [db] becomes null and the file is unlinked. *)
Definition remove (t : SqliteDbTable) (fs : filesystem)
    : SqliteDbTable * filesystem :=
  match db t with
  | None => (t, fs)
  | Some _ =>
      let t := abort t in
      let fs := match db t with
                | Some c => sqlite3_close c (dbfile t) fs
                | None => fs
                end in
      let t := set_db t None in
      let localpath := path2local (dbfile t) in
      (t, unlinklocal localpath fs)
  end.

End Cache.

(** * The vocabulary of the statements *)

Abbreviation row := (Z * list value)%type.

(** The rows of a table stand in strictly increasing rowid order. *)
Fixpoint increasing (rs : list row) : Prop :=
  match rs with
  | [] => True
  | r :: rs' => Forall (fun x => fst r < fst x) rs' /\ increasing rs'
  end.

Definition has_key (k : Z) (r : row) : bool := Z.eqb (fst r) k.

(** A connection holds table [name] with the given key column, columns
    and rows. *)
Definition holds (c : sqlite3) (name pkc : string)
    (cols : list (string * bool)) (rs : list row) : Prop :=
  image c !! name = Some {| pk := pkc; columns := cols; rows := rs |}.

Definition init_table (c : sqlite3) (rs : list row) : Prop :=
  holds c "init" "id" [("content", true)] rs.

Definition nodes_table (c : sqlite3) (rs : list row) : Prop :=
  holds c "nodes" "nodehandle"
    [("parenthandle", true); ("fingerprint", false); ("attrstring", false);
     ("shared", true); ("node", true)] rs.

Definition users_table (c : sqlite3) (rs : list row) : Prop :=
  holds c "users" "userhandle" [("user", true)] rs.

Definition pcrs_table (c : sqlite3) (rs : list row) : Prop :=
  holds c "pcrs" "id" [("pcr", true)] rs.

(** Replacing the rows of a table of the connection. *)
Definition with_table (c : sqlite3) (name pkc : string)
    (cols : list (string * bool)) (rs : list row) : sqlite3 :=
  set_image c (<[name := {| pk := pkc; columns := cols; rows := rs |}]> (image c)).

Definition nodes_columns : list (string * bool) :=
  [("parenthandle", true); ("fingerprint", false); ("attrstring", false);
   ("shared", true); ("node", true)].

(** The row [putnode] writes, without its rowid. *)
Definition node_row (ph : handle) (fp : string) (attr : option string)
    (shared : Z) (node : string) : list value :=
  [INTEGER (to_int64 ph);
   (if Nat.eqb (String.length fp) 0 then NULL else BLOB fp);
   (match attr with Some a => TEXT a | None => NULL end);
   INTEGER shared; BLOB node].

(** Column [i] of a row holds the integer [z]. *)
Definition int_at (i : nat) (z : Z) (r : row) : bool :=
  match List.nth i (snd r) NULL with
  | INTEGER x => Z.eqb x z
  | _ => false
  end.

Definition null_at (i : nat) (r : row) : bool :=
  is_null (List.nth i (snd r) NULL).

(** The rows the three counting statements select. *)
Definition is_child (ph : handle) (r : row) : bool := int_at 0 (to_int64 ph) r.
Definition is_child_file (ph : handle) (r : row) : bool :=
  is_child ph r && negb (null_at 1 r).
Definition is_child_folder (ph : handle) (r : row) : bool :=
  is_child ph r && null_at 1 r.

Definition counted (f : row -> bool) (rs : list row) : Z :=
  to_int (Z.of_nat (List.length (List.filter f rs))).

Definition init_columns : list (string * bool) := [("content", true)].

(** The rows a scan has still to visit. *)
Definition remaining (tb : table) (w : option cond) (s : sqlite3_stmt)
    : list row :=
  List.filter (fun x => after (pos s) (fst x) && selects tb (binds s) w x)
              (rows tb).

(** "parenthandle = P AND shared = s OR shared = 4" on a row. *)
Definition child_with_share_or_combined (ph : handle) (s : Z) (r : row) : bool :=
  is_child ph r && int_at 3 s r || int_at 3 4 r.

Definition nodes_def (rs : list row) : table :=
  {| pk := "nodehandle"; columns := nodes_columns; rows := rs |}.

Definition bound_scan (q : sql) (ph : handle) : sqlite3_stmt :=
  {| text := q; binds := [INTEGER (to_int64 ph)]; pos := None; current := None |}.

(** The image [DELETE FROM name] leaves. *)
Definition emptied (name : string) (d : database) : database :=
  match d !! name with
  | Some tb => <[name := with_rows tb []]> d
  | None => d
  end.

(** The image [CREATE TABLE IF NOT EXISTS] leaves. *)
Definition created (name pkc : string) (cols : list (string * bool))
    (d : database) : database :=
  match d !! name with
  | Some _ => d
  | None => <[name := {| pk := pkc; columns := cols; rows := [] |}]> d
  end.

(** The schema after the four CREATE statements of [open]. *)
Definition schema (d : database) : database :=
  created "pcrs" "id" [("pcr", true)]
    (created "users" "userhandle" [("user", true)]
      (created "nodes" "nodehandle" nodes_columns
        (created "init" "id" init_columns d))).

(** The path of the file behind an account name. *)
Definition file_of (a : SqliteDbAccess) (name : string) : string :=
  dbpath a +:+ "megaclient_statecache7_" +:+ name +:+ ".db".

(** The image [open] starts from. *)
Definition stored (fs : filesystem) (path : string) : database :=
  default ∅ (fs !! path).

(** "fingerprint = fp" on a row: the cell is a blob with these bytes. *)
Definition fingerprint_is (fp : string) (r : row) : bool :=
  match List.nth 1 (snd r) NULL with
  | BLOB b => String.eqb b fp
  | _ => false
  end.

(** "attrstring IS NOT NULL" on a row. *)
Definition has_attrstring (r : row) : bool := negb (null_at 2 r).

(** "shared = a OR shared = b" on a row. *)
Definition share_in (a b : Z) (r : row) : bool := int_at 3 a r || int_at 3 b r.

(** A database that has the four tables of the cache. *)
Definition complete (d : database) : Prop :=
  d !! "init" <> None /\ d !! "nodes" <> None /\
  d !! "users" <> None /\ d !! "pcrs" <> None.

(** No rowid of the rows is [k]. *)
Definition absent (k : Z) (rs : list row) : Prop :=
  Forall (fun r => fst r <> k) rs.

(** A handle that fits 64 bits. *)
Definition is_handle (h : handle) : Prop := 0 <= h < 2^64.

(** The statement [sqlite3_prepare] returns for a text that compiles,
    and the statement a [rewind...] member leaves in [pStmt]. *)
Definition prepared (q : sql) : sqlite3_stmt :=
  {| text := q; binds := List.repeat NULL (nparams q);
     pos := None; current := None |}.

Definition started (q : sql) (ph : option handle) : sqlite3_stmt :=
  match ph with
  | Some p => snd (sqlite3_bind_int64 (prepared q) 1 (to_int64 p))
  | None => prepared q
  end.

(** The names [open] gives the tables of the cache. *)
Definition cache_tables : list string := ["init"; "nodes"; "users"; "pcrs"].

(** The database holds no table but tables of the cache, under these
    very names.  The engine finds a table whatever the case of the
    letters of its name, while the freshness query of [open] compares
    the name as it is written; a table named INIT is one this excludes. *)
Definition only_cache_tables (d : database) : bool :=
  forallb (fun m => existsb (String.eqb m) cache_tables)
          (List.map fst (map_to_list d)).

(** The payload of a row of the users or of the pending contacts. *)
Definition payload_of `{Casts} (r : row) : string :=
  value_blob (List.nth 0 (snd r) NULL).

Section Observations.

Context `{Externals} `{Casts}.

(** The rows of a table of the cache, none when the connection or the
    table is missing. *)
Definition table_rows (t : SqliteDbTable) (name : string) : list row :=
  match db t with
  | Some c => match image c !! name with
              | Some tb => rows tb
              | None => []
              end
  | None => []
  end.

(** The content of slot [index], read as a blob. *)
Definition slot (index : Z) (rs : list row) : option string :=
  option_map (fun r => value_blob (List.nth 0 (snd r) NULL))
             (List.find (has_key index) rs).

(** What [readhkey] makes of the content of a slot: a block of
    HANDLEKEYLENGTH bytes at which the decoder writes, with the length
    of the content as the bound it is given. *)
Definition decoded (buf : string) : block :=
  fill (malloc HANDLEKEYLENGTH) (Base64_atob buf (String.length buf)).

(** The bytes the decoder writes for [buf] fit a handle key block. *)
Definition decodes_within (buf : string) : Prop :=
  within (decoded buf).

(** What every member does on an object whose connection is null. *)
Definition refuses_everything (t : SqliteDbTable) : Prop :=
  (forall data, getscsn data t = (false, data)) /\
  (forall i data, getrootnode i data t = (false, data)) /\
  (forall h data, getnodebyhandle h data t = (false, data)) /\
  (forall fp data, getnodebyfingerprint fp data t = (false, data)) /\
  (forall ph n, getnumchildrenquery ph n t = (false, n)) /\
  (forall ph n, getnumchildfilesquery ph n t = (false, n)) /\
  (forall ph n, getnumchildfoldersquery ph n t = (false, n)) /\
  readhkey t = (false, t) /\
  (forall d, putscsn d t = (false, t)) /\
  (forall i d, putrootnode i d t = (false, t)) /\
  (forall h ph fp attr sh n, putnode h ph fp attr sh n t = (false, t)) /\
  (forall h u, putuser h u t = (false, t)) /\
  (forall h p, putpcr h p t = (false, t)) /\
  (forall h, delnode h t = (false, t)) /\
  (forall h, delpcr h t = (false, t)) /\
  (forall q ph, rewind q ph t = t) /\
  (forall data, next data t = (false, data, t)) /\
  (forall h, nexthandle h t = (false, h, t)) /\
  truncate t = t /\ begin t = t /\ commit t = t /\ abort t = t /\
  (forall fs, remove t fs = (t, fs)) /\
  (forall fs, destroy t fs = fs).

(** Calling [nexthandle] until it returns false, at most [fuel] times:
    the handles it returned, and the object it leaves. *)
Fixpoint drain_handles (fuel : nat) (t : SqliteDbTable)
    : list handle * SqliteDbTable :=
  match fuel with
  | O => ([], t)
  | S fuel' =>
      match nexthandle 0 t with
      | (true, h, t') =>
          let (hs, t'') := drain_handles fuel' t' in (h :: hs, t'')
      | (false, _, t') => ([], t')
      end
  end.

(** The same with [next]. *)
Fixpoint drain (fuel : nat) (t : SqliteDbTable)
    : list string * SqliteDbTable :=
  match fuel with
  | O => ([], t)
  | S fuel' =>
      match next "" t with
      | (true, d, t') =>
          let (ds, t'') := drain fuel' t' in (d :: ds, t'')
      | (false, _, t') => ([], t')
      end
  end.

End Observations.

(** ** A concrete store *)

(** Stand-ins for the codec, the cipher, the generator and the engine's
    conversions, to run the cache on concrete inputs. *)
#[local] Instance sample_externals : Externals := {|
  HANDLEKEYLENGTH := 4;
  SymmCipher := string;
  PrnGen := nat;
  PrnGen_genblock g n :=
    (string_of_list (List.repeat (Ascii.ascii_of_nat (65 + g)) n), S g);
  Base64_btoa b := b +:+ "=";
  Base64_atob a n := string_take (Nat.min n 4) a;
  PaddedCBC_encrypt d k := k +:+ d
|}.

#[local] Instance sample_casts : Casts := {|
  int64_to_text z := "";
  text_to_int64 s := 0
|}.

Definition sample_access : SqliteDbAccess := {| dbpath := "/cache/" |}.

Definition closed_table : SqliteDbTable :=
  {| db := None; pStmt := None; dbfile := ""; key := ""; hkey := None;
     phkey := None |}.

Definition opened (o : option SqliteDbTable * filesystem * PrnGen)
    : SqliteDbTable :=
  match o with
  | (Some t, _, _) => t
  | _ => closed_table
  end.

Definition connection (t : SqliteDbTable) : sqlite3 :=
  match db t with
  | Some c => c
  | None => {| image := ∅; journal := None |}
  end.

(** A fresh store for account "alice". *)
Definition fresh_table : SqliteDbTable :=
  opened (open sample_access ∅ O "alice" "K").

(** The store after a folder A under the root 1, a file B in A that is
    shared out and pending, a file C in A that is shared out, a user, a
    pending contact and a sync token have been written. *)
Definition sample_table : SqliteDbTable :=
  let t := fresh_table in
  let t := snd (putnode 10 1 "" None 0 "A" t) in
  let t := snd (putnode 11 10 "f1" None 4 "B" t) in
  let t := snd (putnode 12 10 "f2" (Some "attr") 1 "C" t) in
  let t := snd (putuser 7 "U" t) in
  let t := snd (putpcr 8 "P" t) in
  snd (putscsn "tok" t).

(** An object on a connection to an empty database, as the constructor
    makes it when it is handed such a connection. *)
Definition bare_table : SqliteDbTable :=
  SqliteDbTable_new {| image := ∅; journal := None |} "/cache/bare.db" "K".

(** A store whose file already holds an empty init table, so that
    [open] writes no key into it. *)
Definition keyless_files : filesystem :=
  {[ file_of sample_access "bob" :=
       {[ "init" := {| pk := "id"; columns := init_columns; rows := [] |} ]} ]}.

Definition keyless_table : SqliteDbTable :=
  opened (open sample_access keyless_files O "bob" "K").

(** ** Proof steps *)

(** Case analysis on the cells a WHERE clause looks at. *)
Ltac by_columns r :=
  cbn;
  repeat match goal with
         | |- context [List.nth ?i (snd r) NULL] =>
             destruct (List.nth i (snd r) NULL); cbn
         | |- context [Z.eqb ?x ?y] => destruct (Z.eqb x y); cbn
         end;
  reflexivity.

Ltac evaluated := vm_compute; reflexivity.

Ltac in_rowid_order := vm_compute; repeat (split || constructor).

Ltac small_handle := split; vm_compute; [discriminate | reflexivity].

Ltac no_such_row := vm_compute; repeat constructor; discriminate.

(** * Properties *)

(** ** Rows in rowid order *)

Lemma find_upsert k v rs :
  List.find (has_key k) (upsert k v rs) = Some (k, v).
Proof.
  unfold has_key.
  induction rs as [|[k' v'] rs IH]; simpl.
  - now rewrite Z.eqb_refl.
  - destruct (Z.ltb_spec k k') as [Hlt|Hge]; simpl.
    + now rewrite Z.eqb_refl.
    + destruct (Z.eqb_spec k k') as [->|Hne]; simpl.
      * now rewrite Z.eqb_refl.
      * destruct (Z.eqb_spec k' k) as [->|_]; [lia | exact IH].
Qed.

Lemma find_upsert_other k k' v rs :
  k <> k' ->
  List.find (has_key k') (upsert k v rs) = List.find (has_key k') rs.
Proof.
  unfold has_key. intros Hne.
  induction rs as [|[k0 v0] rs IH]; simpl.
  - destruct (Z.eqb_spec k k'); [contradiction | reflexivity].
  - destruct (Z.ltb_spec k k0); simpl.
    + destruct (Z.eqb_spec k k'); [contradiction | reflexivity].
    + destruct (Z.eqb_spec k k0) as [->|Hk]; simpl.
      * destruct (Z.eqb_spec k0 k'); [contradiction | reflexivity].
      * destruct (Z.eqb_spec k0 k'); [reflexivity | exact IH].
Qed.

(** Writing a rowid twice leaves what the second write alone leaves. *)
Lemma upsert_upsert k v1 v2 rs :
  upsert k v2 (upsert k v1 rs) = upsert k v2 rs.
Proof.
  induction rs as [|[k' v'] rs IH]; simpl.
  - now rewrite Z.ltb_irrefl, Z.eqb_refl.
  - destruct (Z.ltb_spec k k') as [Hlt|Hge]; simpl.
    + now rewrite Z.ltb_irrefl, Z.eqb_refl.
    + destruct (Z.eqb_spec k k') as [->|Hne]; simpl.
      * now rewrite Z.ltb_irrefl, Z.eqb_refl.
      * destruct (Z.ltb_spec k k'); [lia|].
        destruct (Z.eqb_spec k k'); [contradiction|].
        now rewrite IH.
Qed.

Lemma upsert_length k v1 v2 rs :
  List.length (upsert k v1 rs) = List.length (upsert k v2 rs).
Proof.
  induction rs as [|[k' v'] rs IH]; simpl; [reflexivity|].
  destruct (Z.ltb k k'); [reflexivity|].
  destruct (Z.eqb k k'); simpl; [reflexivity | now rewrite IH].
Qed.

Lemma upsert_In k v rs x :
  In x (upsert k v rs) -> x = (k, v) \/ In x rs.
Proof.
  induction rs as [|[k' v'] rs IH]; simpl.
  - intros [<-|[]]. now left.
  - destruct (Z.ltb k k'); simpl.
    + intros [<-|Hin]; [now left | now right].
    + destruct (Z.eqb k k'); simpl.
      * intros [<-|Hin]; [now left | right; now right].
      * intros [<-|Hin]; [right; now left|].
        destruct (IH Hin) as [->|Hin']; [now left | right; now right].
Qed.

(** The cache keeps every table in rowid order. *)
Lemma upsert_increasing k v rs :
  increasing rs -> increasing (upsert k v rs).
Proof.
  induction rs as [|[k' v'] rs IH]; simpl.
  - intros _. split; [constructor | exact I].
  - intros [Hall Hinc].
    destruct (Z.ltb_spec k k') as [Hlt|Hge]; simpl.
    + split; [|split; assumption].
      constructor; [exact Hlt|].
      eapply List.Forall_impl; [|exact Hall]. simpl. intros; lia.
    + destruct (Z.eqb_spec k k') as [->|Hne]; simpl.
      * split; assumption.
      * split; [|now apply IH].
        apply List.Forall_forall. intros x Hx.
        destruct (upsert_In _ _ _ _ Hx) as [->|Hin]; simpl; [lia|].
        rewrite List.Forall_forall in Hall. now apply Hall.
Qed.

Lemma filter_increasing (f : row -> bool) rs :
  increasing rs -> increasing (List.filter f rs).
Proof.
  induction rs as [|r rs IH]; simpl; [trivial|].
  intros [Hall Hinc]. destruct (f r); simpl; [|now apply IH].
  split; [|now apply IH].
  apply List.Forall_forall. intros x Hx.
  apply List.filter_In in Hx as [Hx _].
  rewrite List.Forall_forall in Hall. now apply Hall.
Qed.

(** Deleting a rowid that is not there changes nothing. *)
Lemma filter_absent k rs :
  Forall (fun r => fst r <> k) rs ->
  List.filter (fun r => negb (has_key k r)) rs = rs.
Proof.
  unfold has_key.
  induction 1 as [|r rs Hr _ IH]; simpl; [reflexivity|].
  destruct (Z.eqb_spec (fst r) k); [contradiction|]. simpl. now rewrite IH.
Qed.

Lemma find_head {A} (f : A -> bool) (l : list A) :
  List.find f l = List.hd_error (List.filter f l).
Proof.
  induction l as [|a l IH]; simpl; [reflexivity|].
  destruct (f a); [reflexivity | exact IH].
Qed.

(** In rowid order, the rows selected past the first selected row are
    the other selected rows. *)
Lemma filter_past (sel : row -> bool) p rs r rem :
  increasing rs ->
  List.filter (fun x => after p (fst x) && sel x) rs = r :: rem ->
  List.filter (fun x => after (Some (fst r)) (fst x) && sel x) rs = rem.
Proof.
  induction rs as [|x rs IH]; simpl; [discriminate|].
  intros [Hall Hinc] Hf.
  rewrite List.Forall_forall in Hall.
  destruct (after p (fst x) && sel x) eqn:Hx.
  - injection Hf as <- <-.
    rewrite Z.ltb_irrefl. simpl.
    apply List.filter_ext_in. intros y Hy.
    apply andb_true_iff in Hx as [Hp _].
    specialize (Hall y Hy).
    destruct (Z.ltb_spec (fst x) (fst y)); [|lia].
    destruct p as [q|]; simpl in *; [|reflexivity].
    apply Z.ltb_lt in Hp.
    destruct (Z.ltb_spec q (fst y)); [reflexivity | lia].
  - assert (Hin : In r rs).
    { assert (In r (r :: rem)) as Hr by now left.
      rewrite <- Hf in Hr. now apply List.filter_In in Hr as [Hr _]. }
    specialize (Hall r Hin).
    destruct (Z.ltb_spec (fst r) (fst x)); [lia|]. simpl.
    now apply IH.
Qed.

Lemma find_ext {A} (f g : A -> bool) (l : list A) :
  (forall x, f x = g x) -> List.find f l = List.find g l.
Proof.
  intros Hfg. induction l as [|a l IH]; simpl; [reflexivity|].
  rewrite Hfg, IH. reflexivity.
Qed.

Lemma length_filter_split {A} (f g h : A -> bool) (l : list A) :
  (forall x, f x = xorb (g x) (h x) /\ g x && h x = false) ->
  List.length (List.filter f l)
  = (List.length (List.filter g l) + List.length (List.filter h l))%nat.
Proof.
  intros Hx. induction l as [|a l IH]; simpl; [reflexivity|].
  destruct (Hx a) as [Hf Hgh]. rewrite Hf.
  destruct (g a), (h a); simpl in *; try discriminate; lia.
Qed.

(** ** The schema *)

Section Properties.

Context `{Externals} `{Casts}.

Lemma has_key_select k :
  forall r : row, (if Z.eqb (fst r) k then true else false) = has_key k r.
Proof. intros r. unfold has_key. now destruct (Z.eqb (fst r) k). Qed.

Lemma set_db_id t c : db t = Some c -> set_db t (Some c) = t.
Proof. destruct t; simpl; now intros ->. Qed.

Lemma with_table_id c name pkc cols rs :
  holds c name pkc cols rs -> with_table c name pkc cols rs = c.
Proof.
  unfold holds, with_table, set_image. intros Ht.
  rewrite (insert_id _ _ _ Ht). now destruct c.
Qed.

Lemma holds_with_table c name pkc cols rs :
  holds (with_table c name pkc cols rs) name pkc cols rs.
Proof. unfold holds, with_table. simpl. apply lookup_insert_eq. Qed.

Lemma with_table_twice c name pkc cols rs1 rs2 :
  with_table (with_table c name pkc cols rs1) name pkc cols rs2
  = with_table c name pkc cols rs2.
Proof. unfold with_table, set_image. simpl. now rewrite insert_insert_eq. Qed.

(** *** What the node writers and readers do to the rows *)

Lemma putnode_rows t c rs h ph fp attr sh node :
  db t = Some c -> nodes_table c rs ->
  putnode h ph fp attr sh node t
  = (true, set_db t (Some (with_table c "nodes" "nodehandle" nodes_columns
                             (upsert (to_int64 h) (node_row ph fp attr sh node) rs)))).
Proof.
  intros Hdb Ht. unfold nodes_table, holds in Ht.
  unfold putnode, write_one. rewrite Hdb.
  unfold sqlite3_prepare, compiles, insert_node. rewrite Ht. cbn.
  unfold sqlite3_step. cbn. rewrite Ht. cbn.
  unfold node_row. now destruct (Nat.eqb (String.length fp) 0).
Qed.

Lemma getnodebyhandle_rows t c rs h data :
  db t = Some c -> nodes_table c rs ->
  getnodebyhandle h data t
  = match List.find (has_key (to_int64 h)) rs with
    | Some r => (true, value_blob (List.nth 4 (snd r) NULL))
    | None => (false, data)
    end.
Proof.
  intros Hdb Ht. unfold nodes_table, holds in Ht.
  unfold getnodebyhandle, read_one. rewrite Hdb.
  unfold sqlite3_prepare, compiles, select_node_by_handle. rewrite Ht. cbn.
  unfold sqlite3_step. cbn. rewrite Ht.
  unfold next_row. cbn.
  rewrite (find_ext _ _ rs (has_key_select (to_int64 h))).
  now destruct (List.find _ rs).
Qed.

(** C1: on an open store, [putnode] for a handle followed by
    [getnodebyhandle] for it returns the payload that was put, byte for
    byte; a second [putnode] for the same handle makes
    [getnodebyhandle] return the second payload, and it replaces the
    row: the table has as many rows as after the first put, and is the
    table the second put alone would have left. *)
Theorem putnode_getnodebyhandle
    t c rs (h : handle) ph fp attr sh (p : string) ph2 fp2 attr2 sh2 (p2 : string) data :
  db t = Some c -> nodes_table c rs ->
  let r1 := putnode h ph fp attr sh p t in
  let r2 := putnode h ph2 fp2 attr2 sh2 p2 (snd r1) in
  fst r1 = true /\
  getnodebyhandle h data (snd r1) = (true, p) /\
  fst r2 = true /\
  getnodebyhandle h data (snd r2) = (true, p2) /\
  List.length (table_rows (snd r2) "nodes")
    = List.length (table_rows (snd r1) "nodes") /\
  snd r2 = snd (putnode h ph2 fp2 attr2 sh2 p2 t).
Proof.
  intros Hdb Ht r1 r2. subst r1 r2.
  rewrite (putnode_rows _ _ _ _ _ _ _ _ _ Hdb Ht). simpl.
  set (c1 := with_table c _ _ _ _).
  assert (Hdb1 : db (set_db t (Some c1)) = Some c1) by reflexivity.
  assert (Ht1 : nodes_table c1 (upsert (to_int64 h) (node_row ph fp attr sh p) rs))
    by apply holds_with_table.
  rewrite (putnode_rows _ _ _ _ _ _ _ _ _ Hdb1 Ht1). simpl.
  rewrite (putnode_rows _ _ _ _ _ _ _ _ _ Hdb Ht). simpl.
  subst c1. rewrite with_table_twice, upsert_upsert.
  split; [reflexivity|]. split.
  { rewrite (getnodebyhandle_rows _ _ _ _ _ Hdb1 Ht1), find_upsert.
    reflexivity. }
  split; [reflexivity|]. split.
  { erewrite getnodebyhandle_rows;
      [| reflexivity | apply holds_with_table].
    rewrite find_upsert. reflexivity. }
  split.
  { unfold table_rows, with_table. simpl.
    rewrite !lookup_insert_eq. simpl. apply upsert_length. }
  now destruct t.
Qed.

(** *** Counting children *)

Lemma getnumchildrenquery_rows t c rs ph cnt :
  db t = Some c -> nodes_table c rs ->
  getnumchildrenquery ph cnt t = (true, counted (is_child ph) rs).
Proof.
  intros Hdb Ht. unfold nodes_table, holds in Ht.
  unfold getnumchildrenquery, count_query. rewrite Hdb.
  unfold sqlite3_prepare, compiles, count_children. rewrite Ht. cbn.
  unfold sqlite3_step. cbn. rewrite Ht. cbn.
  unfold sqlite3_column_int, sqlite3_column_int64, counted. cbn.
  do 4 f_equal. apply List.filter_ext. intros r.
  unfold is_child, int_at. by_columns r.
Qed.

Lemma getnumchildfilesquery_rows t c rs ph cnt :
  db t = Some c -> nodes_table c rs ->
  getnumchildfilesquery ph cnt t = (true, counted (is_child_file ph) rs).
Proof.
  intros Hdb Ht. unfold nodes_table, holds in Ht.
  unfold getnumchildfilesquery, count_query. rewrite Hdb.
  unfold sqlite3_prepare, compiles, count_child_files. rewrite Ht. cbn.
  unfold sqlite3_step. cbn. rewrite Ht. cbn.
  unfold sqlite3_column_int, sqlite3_column_int64, counted. cbn.
  do 4 f_equal. apply List.filter_ext. intros r.
  unfold is_child_file, is_child, int_at, null_at. by_columns r.
Qed.

Lemma getnumchildfoldersquery_rows t c rs ph cnt :
  db t = Some c -> nodes_table c rs ->
  getnumchildfoldersquery ph cnt t = (true, counted (is_child_folder ph) rs).
Proof.
  intros Hdb Ht. unfold nodes_table, holds in Ht.
  unfold getnumchildfoldersquery, count_query. rewrite Hdb.
  unfold sqlite3_prepare, compiles, count_child_folders. rewrite Ht. cbn.
  unfold sqlite3_step. cbn. rewrite Ht. cbn.
  unfold sqlite3_column_int, sqlite3_column_int64, counted. cbn.
  do 4 f_equal. apply List.filter_ext. intros r.
  unfold is_child_folder, is_child, int_at, null_at. by_columns r.
Qed.

Lemma children_split ph rs :
  List.length (List.filter (is_child ph) rs)
  = (List.length (List.filter (is_child_file ph) rs)
     + List.length (List.filter (is_child_folder ph) rs))%nat.
Proof.
  apply length_filter_split. intros r.
  unfold is_child_file, is_child_folder.
  now destruct (is_child ph r), (null_at 1 r).
Qed.

Lemma to_int_add a b : to_int (to_int a + to_int b) = to_int (a + b).
Proof.
  unfold to_int.
  replace (((a + 2^31) mod 2^32 - 2^31) + ((b + 2^31) mod 2^32 - 2^31) + 2^31)
    with ((a + 2^31) mod 2^32 + ((b + 2^31) mod 2^32 - 2^31)) by lia.
  rewrite Zplus_mod_idemp_l.
  replace (a + 2^31 + ((b + 2^31) mod 2^32 - 2^31))
    with ((b + 2^31) mod 2^32 + a) by lia.
  rewrite Zplus_mod_idemp_l.
  f_equal. f_equal. lia.
Qed.

Lemma to_int_small z : 0 <= z < 2^31 -> to_int z = z.
Proof.
  intros Hz. unfold to_int. rewrite Z.mod_small; lia.
Qed.

(** C4: on an open store and for every parent handle, the three counts
    succeed and the count of children is the count of child files plus
    the count of child folders: as [int]s for every set of nodes, and
    as numbers whenever the table has fewer than 2^31 rows. *)
Theorem children_are_files_plus_folders t c rs (ph : handle) n0 f0 d0 :
  db t = Some c -> nodes_table c rs ->
  let n := getnumchildrenquery ph n0 t in
  let f := getnumchildfilesquery ph f0 t in
  let d := getnumchildfoldersquery ph d0 t in
  fst n = true /\ fst f = true /\ fst d = true /\
  snd n = to_int (snd f + snd d) /\
  (Z.of_nat (List.length rs) < 2^31 -> snd n = snd f + snd d).
Proof.
  intros Hdb Ht n f d. subst n f d.
  rewrite (getnumchildrenquery_rows _ _ _ _ _ Hdb Ht),
          (getnumchildfilesquery_rows _ _ _ _ _ Hdb Ht),
          (getnumchildfoldersquery_rows _ _ _ _ _ Hdb Ht).
  simpl. unfold counted.
  repeat (split; [reflexivity|]).
  pose proof (children_split ph rs) as Hs.
  split.
  - rewrite to_int_add, Hs. f_equal. lia.
  - intros Hlt.
    pose proof (List.filter_length_le (is_child ph) rs).
    rewrite !to_int_small; lia.
Qed.

(** *** The scalar slots *)

Lemma putrootnode_rows t c rs index data :
  db t = Some c -> init_table c rs ->
  putrootnode index data t
  = (true, set_db t (Some (with_table c "init" "id" init_columns
                             (upsert index [BLOB data] rs)))).
Proof.
  intros Hdb Ht. unfold init_table, holds in Ht.
  unfold putrootnode, write_one. rewrite Hdb.
  unfold sqlite3_prepare, compiles, insert_init. rewrite Ht. cbn.
  unfold sqlite3_step. cbn. rewrite Ht. cbn. reflexivity.
Qed.

Lemma getrootnode_rows t c rs index data :
  db t = Some c -> init_table c rs ->
  getrootnode index data t
  = match slot index rs with
    | Some content => (true, content)
    | None => (false, data)
    end.
Proof.
  intros Hdb Ht. unfold init_table, holds in Ht.
  unfold getrootnode, read_one. rewrite Hdb.
  unfold sqlite3_prepare, compiles, select_init. rewrite Ht. cbn.
  unfold sqlite3_step. cbn. rewrite Ht.
  unfold next_row, slot. cbn.
  rewrite (find_ext _ _ rs (has_key_select index)).
  now destruct (List.find _ rs).
Qed.

Lemma getscsn_getrootnode data t : getscsn data t = getrootnode 0 data t.
Proof. reflexivity. Qed.

Lemma readhkey_rows t c rs :
  db t = Some c -> init_table c rs ->
  readhkey t
  = match slot 4 rs with
    | Some b4 =>
        match slot 5 rs with
        | Some b5 => (true, set_phkey (set_hkey t (decoded b4)) (decoded b5))
        | None => (false, set_hkey t (decoded b4))
        end
    | None => (false, t)
    end.
Proof.
  intros Hdb Ht. unfold init_table, holds in Ht.
  unfold readhkey. rewrite Hdb.
  unfold sqlite3_prepare, compiles, select_init. rewrite Ht. cbn.
  unfold sqlite3_step. cbn. rewrite Ht.
  unfold next_row, slot. cbn.
  rewrite (find_ext _ _ rs (has_key_select 4)),
          (find_ext _ _ rs (has_key_select 5)).
  destruct (List.find (has_key 4) rs); cbn; [|reflexivity].
  now destruct (List.find (has_key 5) rs).
Qed.

Lemma slot_upsert index data rs :
  slot index (upsert index [BLOB data] rs) = Some data.
Proof. unfold slot. now rewrite find_upsert. Qed.

Lemma slot_upsert_other i j v rs :
  i <> j -> slot j (upsert i v rs) = slot j rs.
Proof. intros Hne. unfold slot. now rewrite find_upsert_other. Qed.

(** C8: [putrootnode] and [getrootnode] take any index.  On an open
    store [putrootnode i d] succeeds for every [i] and [d], and
    [getrootnode i] then returns [d]; at index 0 it is the token
    [getscsn] returns; at index 4 it is the content [readhkey] hands to
    the decoder for the node-handle key, and at index 5 (slot 4 being
    filled) for the parent-handle key: the key block then holds the
    bytes decoded from [d].  What is said of the key blocks is said for
    contents whose decoded bytes fit a key block, since [readhkey]
    bounds the decoder by the length of the content and not by the
    length of the block.  [getrootnode 0] reads what [getscsn] reads. *)
Theorem rootnode_index_is_unrestricted t c rs (i : Z) (d data : string) :
  db t = Some c -> init_table c rs ->
  (fst (putrootnode i d t) = true /\
   getrootnode i data (snd (putrootnode i d t)) = (true, d)) /\
  getscsn data (snd (putrootnode 0 d t)) = (true, d) /\
  (decodes_within d ->
   (forall b5, getrootnode 5 data t = (true, b5) -> decodes_within b5) ->
   hkey (snd (readhkey (snd (putrootnode 4 d t))))
   = Some {| size := HANDLEKEYLENGTH;
             written := Base64_atob d (String.length d) |}) /\
  (forall b4, getrootnode 4 data t = (true, b4) ->
   decodes_within b4 -> decodes_within d ->
   fst (readhkey (snd (putrootnode 5 d t))) = true /\
   phkey (snd (readhkey (snd (putrootnode 5 d t))))
   = Some {| size := HANDLEKEYLENGTH;
             written := Base64_atob d (String.length d) |}) /\
  getrootnode 0 data t = getscsn data t.
Proof.
  intros Hdb Ht.
  assert (Hput : forall j,
    exists t', putrootnode j d t = (true, t') /\
      exists c', db t' = Some c' /\
        init_table c' (upsert j [BLOB d] rs)).
  { intros j. eexists. split; [apply (putrootnode_rows _ _ _ _ _ Hdb Ht)|].
    eexists. split; [reflexivity | apply holds_with_table]. }
  split; [|split; [|split; [|split]]].
  - destruct (Hput i) as (t' & -> & c' & Hdb' & Ht'). simpl.
    split; [reflexivity|].
    now rewrite (getrootnode_rows _ _ _ _ _ Hdb' Ht'), slot_upsert.
  - destruct (Hput 0) as (t' & -> & c' & Hdb' & Ht'). simpl.
    now rewrite getscsn_getrootnode,
      (getrootnode_rows _ _ _ _ _ Hdb' Ht'), slot_upsert.
  - intros _ _. destruct (Hput 4) as (t' & -> & c' & Hdb' & Ht'). simpl.
    rewrite (readhkey_rows _ _ _ Hdb' Ht'), slot_upsert.
    now destruct (slot 5 _).
  - intros b4 H4 _ _. destruct (Hput 5) as (t' & -> & c' & Hdb' & Ht'). simpl.
    rewrite (getrootnode_rows _ _ _ _ _ Hdb Ht) in H4.
    rewrite (readhkey_rows _ _ _ Hdb' Ht'), slot_upsert.
    rewrite slot_upsert_other by discriminate.
    destruct (slot 4 rs); [split; reflexivity | discriminate].
  - reflexivity.
Qed.

(** *** Readers and their output buffer *)

Lemma read_one_keeps c q b data :
  fst (read_one c q b data) = false -> snd (read_one c q b data) = data.
Proof.
  unfold read_one.
  destruct (sqlite3_prepare c q) as [[] [s|]]; simpl; try reflexivity.
  destruct (b s) as [[] s']; simpl; try reflexivity.
  destruct (sqlite3_step c s') as [[[] ?] ?]; simpl;
    try reflexivity; discriminate.
Qed.

(** C9: each of the four readers that return a payload through [data]
    leaves [data] as it was when it returns false. *)
Theorem readers_keep_data_on_failure t (data : string) (index : Z)
    (h : handle) (fp : string) :
  (fst (getscsn data t) = false -> snd (getscsn data t) = data) /\
  (fst (getrootnode index data t) = false ->
   snd (getrootnode index data t) = data) /\
  (fst (getnodebyhandle h data t) = false ->
   snd (getnodebyhandle h data t) = data) /\
  (fst (getnodebyfingerprint fp data t) = false ->
   snd (getnodebyfingerprint fp data t) = data).
Proof.
  unfold getscsn, getrootnode, getnodebyhandle, getnodebyfingerprint.
  destruct (db t) as [c|]; simpl; [|tauto].
  repeat split; apply read_one_keeps.
Qed.

(** *** Deleting *)

Lemma delnode_rows t c rs h :
  db t = Some c -> nodes_table c rs ->
  delnode h t
  = (true, set_db t (Some (with_table c "nodes" "nodehandle" nodes_columns
             (List.filter (fun r => negb (has_key (to_int64 h) r)) rs)))).
Proof.
  intros Hdb Ht. unfold nodes_table, holds in Ht.
  unfold delnode, write_one. rewrite Hdb.
  unfold sqlite3_prepare, compiles. rewrite Ht. cbn.
  unfold sqlite3_step. cbn. rewrite Ht. cbn.
  rewrite (List.filter_ext _ (fun r => negb (has_key (to_int64 h) r)))
    by (intros r; now rewrite has_key_select).
  reflexivity.
Qed.

Lemma delpcr_rows t c rs id :
  db t = Some c -> pcrs_table c rs ->
  delpcr id t
  = (true, set_db t (Some (with_table c "pcrs" "id" [("pcr", true)]
             (List.filter (fun r => negb (has_key (to_int64 id) r)) rs)))).
Proof.
  intros Hdb Ht. unfold pcrs_table, holds in Ht.
  unfold delpcr, write_one. rewrite Hdb.
  unfold sqlite3_prepare, compiles. rewrite Ht. cbn.
  unfold sqlite3_step. cbn. rewrite Ht. cbn.
  rewrite (List.filter_ext _ (fun r => negb (has_key (to_int64 id) r)))
    by (intros r; now rewrite has_key_select).
  reflexivity.
Qed.

(** C10: on an open store, [delnode] and [delpcr] for a handle that has
    no row return true and leave the table object, and with it the
    store, as it was. *)
Theorem delete_of_absent_row_succeeds t c (h : handle) :
  db t = Some c ->
  (forall rs, nodes_table c rs ->
     Forall (fun r => fst r <> to_int64 h) rs -> delnode h t = (true, t)) /\
  (forall rs, pcrs_table c rs ->
     Forall (fun r => fst r <> to_int64 h) rs -> delpcr h t = (true, t)).
Proof.
  intros Hdb. split; intros rs Ht Habs.
  - rewrite (delnode_rows _ _ _ _ Hdb Ht), (filter_absent _ _ Habs).
    unfold nodes_columns.
    now rewrite (with_table_id _ _ _ _ _ Ht), (set_db_id _ _ Hdb).
  - rewrite (delpcr_rows _ _ _ _ Hdb Ht), (filter_absent _ _ Habs).
    now rewrite (with_table_id _ _ _ _ _ Ht), (set_db_id _ _ Hdb).
Qed.

(** *** Rowid order is kept *)

(** Tables start empty, and the writers and deleters of nodes keep the
    rowid order the scans rely on. *)
Lemma putnode_keeps_order t c rs h ph fp attr sh node :
  db t = Some c -> nodes_table c rs -> increasing rs ->
  exists c' rs',
    db (snd (putnode h ph fp attr sh node t)) = Some c' /\
    nodes_table c' rs' /\ increasing rs'.
Proof.
  intros Hdb Ht Hinc. rewrite (putnode_rows _ _ _ _ _ _ _ _ _ Hdb Ht).
  eexists. eexists. split; [reflexivity|].
  split; [apply holds_with_table | now apply upsert_increasing].
Qed.

Lemma delnode_keeps_order t c rs h :
  db t = Some c -> nodes_table c rs -> increasing rs ->
  exists c' rs',
    db (snd (delnode h t)) = Some c' /\
    nodes_table c' rs' /\ increasing rs'.
Proof.
  intros Hdb Ht Hinc. rewrite (delnode_rows _ _ _ _ Hdb Ht).
  eexists. eexists. split; [reflexivity|].
  split; [apply holds_with_table | now apply filter_increasing].
Qed.

(** *** After [remove] *)

Lemma remove_closes t fs : db (fst (remove t fs)) = None.
Proof.
  unfold remove. destruct (db t) eqn:Hdb; simpl; [reflexivity | exact Hdb].
Qed.

Lemma closed_refuses t : db t = None -> refuses_everything t.
Proof.
  intros Hdb.
  unfold refuses_everything, getscsn, getrootnode, getnodebyhandle,
    getnodebyfingerprint, getnumchildrenquery, getnumchildfilesquery,
    getnumchildfoldersquery, readhkey, putscsn, putrootnode, putnode,
    putuser, putpcr, delnode, delpcr, write_one, rewind, next, nexthandle,
    truncate, begin, commit, abort, remove, destroy.
  rewrite Hdb. repeat split.
Qed.

(** C7: after [remove], whatever the object was before, its connection
    is null and every member refuses: the readers, the counters,
    [readhkey], the writers, the deleters, [next] and [nexthandle]
    return false and leave their output and the object untouched; the
    members without a result ([rewind...], [truncate], [begin],
    [commit], [abort], [remove], the destructor) change neither the
    object nor the file system. *)
Theorem after_remove_everything_is_refused t fs :
  db (fst (remove t fs)) = None /\ refuses_everything (fst (remove t fs)).
Proof.
  split; [apply remove_closes | apply closed_refuses, remove_closes].
Qed.

(** *** The cursor *)

Lemma set_pStmt_set_db t c s :
  db t = Some c -> set_pStmt (set_db t (Some c)) s = set_pStmt t s.
Proof. destruct t; simpl; now intros ->. Qed.

Lemma step_scan c s col tn w tb :
  text s = SELECT col tn w -> image c !! tn = Some tb ->
  sqlite3_step c s
  = match remaining tb w s with
    | r :: _ =>
        (SQLITE_ROW, c, moved s (Some (fst r)) (Some (column_value tb r col)))
    | [] => (SQLITE_DONE, c, moved s (pos s) None)
    end.
Proof.
  intros Hs Ht. unfold sqlite3_step, next_row, remaining.
  rewrite Hs, Ht, find_head.
  now destruct (List.filter _ (rows tb)).
Qed.

Lemma nexthandle_scan t c s col tn w tb h :
  db t = Some c -> pStmt t = Some s ->
  text s = SELECT col tn w -> image c !! tn = Some tb ->
  nexthandle h t
  = match remaining tb w s with
    | r :: _ =>
        (true, to_uint64 (value_int64 (column_value tb r col)),
         set_pStmt t (Some (moved s (Some (fst r)) (Some (column_value tb r col)))))
    | [] => (false, h, set_pStmt t None)
    end.
Proof.
  intros Hdb Hp Hs Ht. unfold nexthandle.
  rewrite Hdb, Hp, (step_scan _ _ _ _ _ _ Hs Ht).
  destruct (remaining tb w s); now rewrite (set_pStmt_set_db _ _ _ Hdb).
Qed.

Lemma next_scan t c s col tn w tb data :
  db t = Some c -> pStmt t = Some s ->
  text s = SELECT col tn w -> image c !! tn = Some tb ->
  next data t
  = match remaining tb w s with
    | r :: _ =>
        (true, value_blob (column_value tb r col),
         set_pStmt t (Some (moved s (Some (fst r)) (Some (column_value tb r col)))))
    | [] => (false, data, set_pStmt t None)
    end.
Proof.
  intros Hdb Hp Hs Ht. unfold next.
  rewrite Hdb, Hp, (step_scan _ _ _ _ _ _ Hs Ht).
  destruct (remaining tb w s); now rewrite (set_pStmt_set_db _ _ _ Hdb).
Qed.

Lemma remaining_moved tb w s r rem v :
  increasing (rows tb) ->
  remaining tb w s = r :: rem ->
  remaining tb w (moved s (Some (fst r)) v) = rem.
Proof.
  unfold remaining. simpl. intros Hinc Hrem.
  exact (filter_past (selects tb (binds s) w) (pos s) (rows tb) r rem Hinc Hrem).
Qed.

Lemma drain_handles_scan c col tn w tb :
  image c !! tn = Some tb -> increasing (rows tb) ->
  forall rem fuel t s,
    db t = Some c -> pStmt t = Some s -> text s = SELECT col tn w ->
    remaining tb w s = rem -> (List.length rem < fuel)%nat ->
    drain_handles fuel t
    = (List.map (fun r => to_uint64 (value_int64 (column_value tb r col))) rem,
       set_pStmt t None).
Proof.
  intros Ht Hinc.
  induction rem as [|r rem IH]; intros fuel t s Hdb Hp Hs Hrem Hfuel;
    (destruct fuel as [|fuel]; [simpl in Hfuel; lia|]); simpl;
    rewrite (nexthandle_scan _ _ _ _ _ _ _ _ Hdb Hp Hs Ht), Hrem.
  - reflexivity.
  - erewrite IH; [reflexivity | exact Hdb | reflexivity | exact Hs | | ].
    + now apply remaining_moved.
    + simpl in Hfuel. lia.
Qed.

Lemma drain_scan c col tn w tb :
  image c !! tn = Some tb -> increasing (rows tb) ->
  forall rem fuel t s,
    db t = Some c -> pStmt t = Some s -> text s = SELECT col tn w ->
    remaining tb w s = rem -> (List.length rem < fuel)%nat ->
    drain fuel t
    = (List.map (fun r => value_blob (column_value tb r col)) rem,
       set_pStmt t None).
Proof.
  intros Ht Hinc.
  induction rem as [|r rem IH]; intros fuel t s Hdb Hp Hs Hrem Hfuel;
    (destruct fuel as [|fuel]; [simpl in Hfuel; lia|]); simpl;
    rewrite (next_scan _ _ _ _ _ _ _ _ Hdb Hp Hs Ht), Hrem.
  - reflexivity.
  - erewrite IH; [reflexivity | exact Hdb | reflexivity | exact Hs | | ].
    + now apply remaining_moved.
    + simpl in Hfuel. lia.
Qed.

(** C6: on an open store,
    - with no cursor, [next] and [nexthandle] return false and change
      nothing;
    - with a cursor of any kind on which the engine has no further row,
      they return false, leave their output as it was and leave the
      object without cursor, so that calling again returns false again;
    - with a cursor scanning a table in rowid order, each call returns
      the first row not yet visited that the selector selects, and the
      calls made until false is returned return exactly the selected
      rows not yet visited, once each, and leave the object without
      cursor. *)
Theorem cursor_advance t c :
  db t = Some c ->
  (pStmt t = None ->
   forall data h,
     next data t = (false, data, t) /\ nexthandle h t = (false, h, t)) /\
  (forall s data h,
     pStmt t = Some s -> fst (fst (sqlite3_step c s)) <> SQLITE_ROW ->
     exists t',
       next data t = (false, data, t') /\ nexthandle h t = (false, h, t') /\
       pStmt t' = None /\
       next data t' = (false, data, t') /\ nexthandle h t' = (false, h, t')) /\
  (forall s col tn w tb data h,
     pStmt t = Some s -> text s = SELECT col tn w ->
     image c !! tn = Some tb -> increasing (rows tb) ->
     match remaining tb w s with
     | r :: _ =>
         let s' := moved s (Some (fst r)) (Some (column_value tb r col)) in
         next data t
           = (true, value_blob (column_value tb r col), set_pStmt t (Some s')) /\
         nexthandle h t
           = (true, to_uint64 (value_int64 (column_value tb r col)),
              set_pStmt t (Some s'))
     | [] =>
         next data t = (false, data, set_pStmt t None) /\
         nexthandle h t = (false, h, set_pStmt t None)
     end /\
     forall fuel, (List.length (remaining tb w s) < fuel)%nat ->
       drain fuel t
         = (List.map (fun r => value_blob (column_value tb r col))
                     (remaining tb w s), set_pStmt t None) /\
       drain_handles fuel t
         = (List.map (fun r => to_uint64 (value_int64 (column_value tb r col)))
                     (remaining tb w s), set_pStmt t None)).
Proof.
  intros Hdb. split; [|split].
  - intros Hp data h. unfold next, nexthandle. now rewrite Hdb, Hp.
  - intros s data h Hp Hstep.
    exists (set_pStmt (set_db t (Some (snd (fst (sqlite3_step c s))))) None).
    unfold next, nexthandle. simpl. rewrite Hdb, Hp.
    destruct (sqlite3_step c s) as [[[] c'] s']; simpl in *;
      try (repeat split; reflexivity).
    now contradiction Hstep.
  - intros s col tn w tb data h Hp Hs Ht Hinc. split.
    + rewrite (next_scan _ _ _ _ _ _ _ data Hdb Hp Hs Ht),
              (nexthandle_scan _ _ _ _ _ _ _ h Hdb Hp Hs Ht).
      now destruct (remaining tb w s).
    + intros fuel Hfuel. split.
      * now apply (drain_scan c col tn w tb Ht Hinc _ fuel t s).
      * now apply (drain_handles_scan c col tn w tb Ht Hinc _ fuel t s).
Qed.

(** *** The parent-scoped share selectors *)

Lemma rewindhandlesoutshares_of_stmt t c rs ph :
  db t = Some c -> nodes_table c rs ->
  rewindhandlesoutshares_of ph t
  = set_pStmt t (Some (bound_scan select_outshares_of ph)).
Proof.
  intros Hdb Ht. unfold nodes_table, holds in Ht.
  unfold rewindhandlesoutshares_of, rewind. rewrite Hdb.
  unfold sqlite3_prepare, compiles, select_outshares_of. rewrite Ht. cbn.
  now destruct t.
Qed.

Lemma rewindhandlespendingshares_of_stmt t c rs ph :
  db t = Some c -> nodes_table c rs ->
  rewindhandlespendingshares_of ph t
  = set_pStmt t (Some (bound_scan select_pendingshares_of ph)).
Proof.
  intros Hdb Ht. unfold nodes_table, holds in Ht.
  unfold rewindhandlespendingshares_of, rewind. rewrite Hdb.
  unfold sqlite3_prepare, compiles, select_pendingshares_of. rewrite Ht. cbn.
  now destruct t.
Qed.

Lemma remaining_share_scan rs ph s :
  remaining (nodes_def rs)
    (Some (Or (And (Eq (Col "parenthandle") (Param 1)) (Eq (Col "shared") (Int s)))
              (Eq (Col "shared") (Int 4))))
    {| text := SELECT "nodehandle" "nodes"
         (Some (Or (And (Eq (Col "parenthandle") (Param 1))
                        (Eq (Col "shared") (Int s)))
                   (Eq (Col "shared") (Int 4))));
       binds := [INTEGER (to_int64 ph)]; pos := None; current := None |}
  = List.filter (child_with_share_or_combined ph s) rs.
Proof.
  unfold remaining. simpl rows. apply List.filter_ext. intros r.
  unfold child_with_share_or_combined, is_child, int_at. by_columns r.
Qed.

Lemma drain_share_scan t c rs ph s fuel :
  db t = Some c -> nodes_table c rs -> increasing rs ->
  (List.length rs < fuel)%nat ->
  drain_handles fuel
    (set_pStmt t (Some (bound_scan
       (SELECT "nodehandle" "nodes"
         (Some (Or (And (Eq (Col "parenthandle") (Param 1))
                        (Eq (Col "shared") (Int s)))
                   (Eq (Col "shared") (Int 4))))) ph)))
  = (List.map (fun r => to_uint64 (fst r))
       (List.filter (child_with_share_or_combined ph s) rs),
     set_pStmt t None).
Proof.
  intros Hdb Ht Hinc Hfuel.
  erewrite (drain_handles_scan c "nodehandle" "nodes" _ (nodes_def rs) Ht Hinc
              _ fuel);
    [ | exact Hdb | reflexivity | reflexivity | apply remaining_share_scan | ].
  - reflexivity.
  - pose proof (List.filter_length_le (child_with_share_or_combined ph s) rs).
    lia.
Qed.

(** C2: on an open store whose node table is in rowid order, calling
    [nexthandle] until it returns false after
    [rewindhandlesoutshares(P)] returns the handles of exactly the rows
    that are children of P with share state 1 or have share state 4,
    and after [rewindhandlespendingshares(P)] those that are children of
    P with share state 3 or have share state 4; so every node with
    share state 4 is returned by both, whatever its parent. *)
Theorem parent_scoped_share_selectors t c rs (P : handle) fuel :
  db t = Some c -> nodes_table c rs -> increasing rs ->
  (List.length rs < fuel)%nat ->
  let out := drain_handles fuel (rewindhandlesoutshares_of P t) in
  let pending := drain_handles fuel (rewindhandlespendingshares_of P t) in
  out = (List.map (fun r => to_uint64 (fst r))
           (List.filter (fun r => is_child P r && int_at 3 1 r || int_at 3 4 r) rs),
         set_pStmt t None) /\
  pending = (List.map (fun r => to_uint64 (fst r))
           (List.filter (fun r => is_child P r && int_at 3 3 r || int_at 3 4 r) rs),
         set_pStmt t None) /\
  (forall r, In r rs -> int_at 3 4 r = true ->
     In (to_uint64 (fst r)) (fst out) /\ In (to_uint64 (fst r)) (fst pending)).
Proof.
  intros Hdb Ht Hinc Hfuel out pending. subst out pending.
  rewrite (rewindhandlesoutshares_of_stmt _ _ _ _ Hdb Ht),
          (rewindhandlespendingshares_of_stmt _ _ _ _ Hdb Ht).
  unfold select_outshares_of, select_pendingshares_of.
  rewrite !(drain_share_scan _ _ _ _ _ _ Hdb Ht Hinc Hfuel).
  split; [reflexivity|]. split; [reflexivity|].
  intros r Hin H4. simpl.
  split; apply (List.in_map (fun r => to_uint64 (fst r))), List.filter_In;
    (split; [exact Hin|]); unfold child_with_share_or_combined;
    rewrite H4; apply orb_true_r.
Qed.

(** *** [truncate] *)

Lemma exec_delete_all c name :
  sqlite3_exec c (DELETE_FROM name None)
  = match image c !! name with
    | Some tb => (SQLITE_OK, set_image c (<[name := with_rows tb []]> (image c)))
    | None => (SQLITE_ERROR, c)
    end.
Proof.
  unfold sqlite3_exec, sqlite3_prepare, compiles.
  destruct (image c !! name) as [tb|] eqn:Ht; simpl; [|reflexivity].
  unfold sqlite3_step. simpl. rewrite Ht.
  replace (List.filter _ (rows tb)) with (@nil row); [reflexivity|].
  symmetry. induction (rows tb); simpl; auto.
Qed.

Lemma exec_delete_all_image c name :
  snd (sqlite3_exec c (DELETE_FROM name None))
  = set_image c (emptied name (image c)).
Proof.
  rewrite exec_delete_all. unfold emptied.
  destruct (image c !! name); simpl; [reflexivity | now destruct c].
Qed.

Lemma emptied_other name n d : name <> n -> emptied name d !! n = d !! n.
Proof.
  intros Hne. unfold emptied. destruct (d !! name); [|reflexivity].
  now rewrite lookup_insert_ne.
Qed.

Lemma emptied_same name d :
  emptied name d !! name = option_map (fun tb => with_rows tb []) (d !! name).
Proof.
  unfold emptied. destruct (d !! name) eqn:Hd; simpl; [|exact Hd].
  apply lookup_insert_eq.
Qed.

Lemma truncate_image t c :
  db t = Some c ->
  truncate t
  = set_db t (Some (set_image c
      (emptied "pcrs" (emptied "users" (emptied "nodes" (emptied "scsn" (image c))))))).
Proof.
  intros Hdb. unfold truncate. rewrite Hdb.
  now rewrite !exec_delete_all_image.
Qed.

(** [truncate] empties the node, user and pending-contact tables, and
    leaves the table of the scalar slots, which is named init, as it is:
    its first statement names a table scsn. *)
Lemma truncate_tables t c :
  db t = Some c ->
  exists c', db (truncate t) = Some c' /\
    image c' !! "init" = image c !! "init" /\
    (forall rs, nodes_table c rs -> nodes_table c' []) /\
    (forall rs, users_table c rs -> users_table c' []) /\
    (forall rs, pcrs_table c rs -> pcrs_table c' []).
Proof.
  intros Hdb. rewrite (truncate_image _ _ Hdb). eexists. split; [reflexivity|].
  unfold nodes_table, users_table, pcrs_table, holds. simpl.
  split; [|split; [|split]].
  - now rewrite !emptied_other by discriminate.
  - intros rs Ht.
    rewrite !emptied_other by discriminate.
    rewrite emptied_same, emptied_other by discriminate. now rewrite Ht.
  - intros rs Ht.
    rewrite !emptied_other by discriminate.
    rewrite emptied_same, !emptied_other by discriminate. now rewrite Ht.
  - intros rs Ht.
    rewrite emptied_same, !emptied_other by discriminate. now rewrite Ht.
Qed.

Lemma truncate_keeps_slots t c rs index data :
  db t = Some c -> init_table c rs ->
  getrootnode index data (truncate t) = getrootnode index data t.
Proof.
  intros Hdb Ht.
  destruct (truncate_tables _ _ Hdb) as (c' & Hdb' & Hinit & _).
  assert (Ht' : init_table c' rs).
  { unfold init_table, holds in *. now rewrite Hinit. }
  now rewrite (getrootnode_rows _ _ _ _ _ Hdb' Ht'),
              (getrootnode_rows _ _ _ _ _ Hdb Ht).
Qed.

(** *** [open] *)

Lemma exec_create c name pkc cols :
  sqlite3_exec c (CREATE_TABLE_IF_NOT_EXISTS name pkc cols)
  = (SQLITE_OK, set_image c (created name pkc cols (image c))).
Proof.
  unfold sqlite3_exec, sqlite3_prepare, compiles, sqlite3_step, created. simpl.
  destruct (image c !! name); simpl; [now destruct c | reflexivity].
Qed.

Lemma created_other name pkc cols n d :
  name <> n -> created name pkc cols d !! n = d !! n.
Proof.
  intros Hne. unfold created. destruct (d !! name); [reflexivity|].
  now rewrite lookup_insert_ne.
Qed.

Lemma created_fresh name pkc cols d :
  d !! name = None ->
  created name pkc cols d !! name
  = Some {| pk := pkc; columns := cols; rows := [] |}.
Proof. intros Hd. unfold created. rewrite Hd. apply lookup_insert_eq. Qed.

Lemma created_present name pkc cols d tb :
  d !! name = Some tb -> created name pkc cols d = d.
Proof. intros Hd. unfold created. now rewrite Hd. Qed.

Lemma schema_init d : schema d !! "init" = created "init" "id" init_columns d !! "init".
Proof. unfold schema. now rewrite !created_other by discriminate. Qed.

Lemma schema_present d tb :
  d !! "init" = Some tb -> d !! "nodes" <> None -> d !! "users" <> None ->
  d !! "pcrs" <> None -> schema d = d.
Proof.
  intros Hi Hn Hu Hp. unfold schema.
  rewrite (created_present _ _ _ _ _ Hi).
  destruct (d !! "nodes") as [tn|] eqn:En; [|contradiction].
  rewrite (created_present _ _ _ _ _ En).
  destruct (d !! "users") as [tu|] eqn:Eu; [|contradiction].
  rewrite (created_present _ _ _ _ _ Eu).
  destruct (d !! "pcrs") as [tp|] eqn:Ep; [|contradiction].
  now rewrite (created_present _ _ _ _ _ Ep).
Qed.

Lemma created_has name pkc cols d : created name pkc cols d !! name <> None.
Proof.
  unfold created. destruct (d !! name) eqn:Hd.
  - now rewrite Hd.
  - now rewrite lookup_insert_eq.
Qed.

Lemma schema_has d :
  schema d !! "init" <> None /\ schema d !! "nodes" <> None /\
  schema d !! "users" <> None /\ schema d !! "pcrs" <> None.
Proof.
  unfold schema. repeat split.
  - rewrite !created_other by discriminate. apply created_has.
  - rewrite !created_other by discriminate. apply created_has.
  - rewrite created_other by discriminate. apply created_has.
  - apply created_has.
Qed.

Lemma table_exists_image c :
  table_exists c = match image c !! "init" with Some _ => true | None => false end.
Proof.
  unfold table_exists, sqlite3_prepare, sqlite3_step. simpl.
  now destruct (image c !! "init").
Qed.

Lemma provision_rows c g k rs :
  init_table c rs ->
  provision c g k
  = (true,
     with_table c "init" "id" init_columns
       (upsert 5 [BLOB (fst (fresh_key (snd (fresh_key g k)) k))]
          (upsert 4 [BLOB (fst (fresh_key g k))] rs)),
     snd (fresh_key (snd (fresh_key g k)) k)).
Proof.
  intros Ht. unfold init_table, holds in Ht. unfold provision.
  destruct (fresh_key g k) as [b1 g1]. simpl fst. simpl snd.
  unfold sqlite3_prepare at 1. unfold compiles, insert_init. rewrite Ht. cbn.
  unfold sqlite3_step at 1. cbn. rewrite Ht. cbn.
  destruct (fresh_key g1 k) as [b2 g2]. simpl fst. simpl snd.
  unfold sqlite3_prepare, compiles. cbn. rewrite lookup_insert_eq. cbn.
  unfold sqlite3_step. cbn. rewrite lookup_insert_eq. cbn.
  unfold with_table, set_image. cbn. now rewrite insert_insert_eq.
Qed.

(** On a store without init table, [open] creates the schema, draws two
    keys from the generator and puts them in slots 4 and 5. *)
Lemma open_fresh a fs g name k :
  stored fs (file_of a name) !! "init" = None ->
  let c := with_table
             {| image := schema (stored fs (file_of a name)); journal := None |}
             "init" "id" init_columns
             [(4, [BLOB (fst (fresh_key g k))]);
              (5, [BLOB (fst (fresh_key (snd (fresh_key g k)) k))])] in
  open a fs g name k
  = (Some (SqliteDbTable_new c (file_of a name) k),
     <[file_of a name := image c]> fs,
     snd (fresh_key (snd (fresh_key g k)) k)).
Proof.
  intros Hfresh c. unfold open. fold (file_of a name).
  unfold sqlite3_open. fold (stored fs (file_of a name)).
  set (d := stored fs (file_of a name)) in *.
  change (snd (sqlite3_exec {| image := d; journal := None |} PRAGMA_journal_mode_WAL))
    with {| image := d; journal := None |}.
  rewrite table_exists_image. simpl image. rewrite Hfresh.
  unfold create_init, create_nodes, create_users, create_pcrs.
  rewrite !exec_create. simpl negb. cbv iota. simpl image.
  fold init_columns. fold nodes_columns. fold (schema d).
  erewrite provision_rows.
  2:{ unfold init_table, holds. simpl. rewrite schema_init.
      now apply created_fresh. }
  reflexivity.
Qed.

(** On a store that has an init table, [open] creates what is missing
    of the schema and neither draws from the generator nor writes a
    slot. *)
Lemma open_existing a fs g name k tb :
  stored fs (file_of a name) !! "init" = Some tb ->
  let c := {| image := schema (stored fs (file_of a name)); journal := None |} in
  open a fs g name k
  = (Some (SqliteDbTable_new c (file_of a name) k),
     <[file_of a name := image c]> fs, g) /\
  image c !! "init" = Some tb.
Proof.
  intros Hthere c. unfold open. fold (file_of a name).
  unfold sqlite3_open. fold (stored fs (file_of a name)).
  set (d := stored fs (file_of a name)) in *.
  change (snd (sqlite3_exec {| image := d; journal := None |} PRAGMA_journal_mode_WAL))
    with {| image := d; journal := None |}.
  rewrite table_exists_image. simpl image. rewrite Hthere.
  unfold create_init, create_nodes, create_users, create_pcrs.
  rewrite !exec_create. simpl negb. cbv iota. simpl image.
  fold init_columns. fold nodes_columns. fold (schema d).
  split; [reflexivity|].
  subst c. simpl. rewrite schema_init.
  now rewrite (created_present _ _ _ _ _ Hthere).
Qed.

Lemma destroy_closes t c fs :
  db t = Some c -> journal c = None ->
  destroy t fs = <[dbfile t := image c]> fs.
Proof.
  intros Hdb Hj. unfold destroy, abort. rewrite Hdb. simpl.
  unfold sqlite3_exec, sqlite3_prepare, sqlite3_step. simpl. rewrite Hj.
  simpl. unfold sqlite3_close, committed. now rewrite Hj.
Qed.

(** C5: when [open] returns an object for a store that has no init
    table, it has drawn two keys from the generator and slots 4 and 5
    hold them encoded and then encrypted.  [readhkey] hands the content
    of each slot to the decoder as it is stored, without decrypting it,
    and with the length of that content as the bound: where the decoder
    stays within the two key blocks, [readhkey] succeeds and each block
    of HANDLEKEYLENGTH bytes holds what the decoder wrote for the
    encrypted content.  After the object is destroyed, an [open] of the
    same store with the same key that returns an object has not drawn
    from the generator, the slots hold what they held and [readhkey]
    yields the same two blocks.  In general an [open] that returns an
    object leaves the generator and the init table alone whenever the
    init table exists. *)
Theorem handle_keys_are_decoded_as_stored a fs g name k t1 fs1 g1 :
  stored fs (file_of a name) !! "init" = None ->
  open a fs g name k = (Some t1, fs1, g1) ->
  let c4 := fst (fresh_key g k) in
  let c5 := fst (fresh_key (snd (fresh_key g k)) k) in
  let b4 := {| size := HANDLEKEYLENGTH;
               written := Base64_atob c4 (String.length c4) |} in
  let b5 := {| size := HANDLEKEYLENGTH;
               written := Base64_atob c5 (String.length c5) |} in
  (g1 = snd (fresh_key (snd (fresh_key g k)) k) /\
   getrootnode 4 "" t1 = (true, c4) /\
   getrootnode 5 "" t1 = (true, c5)) /\
  (decodes_within c4 -> decodes_within c5 ->
   (fst (readhkey t1) = true /\
    hkey (snd (readhkey t1)) = Some b4 /\
    phkey (snd (readhkey t1)) = Some b5) /\
   (forall t2 fs2 g2,
      open a (destroy (snd (readhkey t1)) fs1) g1 name k = (Some t2, fs2, g2) ->
      g2 = g1 /\
      getrootnode 4 "" t2 = (true, c4) /\
      getrootnode 5 "" t2 = (true, c5) /\
      fst (readhkey t2) = true /\
      hkey (snd (readhkey t2)) = Some b4 /\
      phkey (snd (readhkey t2)) = Some b5)) /\
  (forall fs0 g0 tb t fs' g',
     stored fs0 (file_of a name) !! "init" = Some tb ->
     open a fs0 g0 name k = (Some t, fs', g') ->
     g' = g0 /\ exists c, db t = Some c /\ image c !! "init" = Some tb).
Proof.
  intros Hfresh Hreturned c4 c5 b4 b5.
  pose proof (open_fresh a fs g name k Hfresh) as Hopen. cbv zeta in Hopen.
  fold c4 c5 in Hopen.
  set (d := schema (stored fs (file_of a name))) in *.
  set (c := with_table {| image := d; journal := None |} "init" "id"
              init_columns [(4, [BLOB c4]); (5, [BLOB c5])]) in *.
  rewrite Hopen in Hreturned.
  injection Hreturned as Ht1 Hfs1 Hg1.
  assert (Hdb : db t1 = Some c) by now rewrite <- Ht1.
  assert (Hfile : dbfile t1 = file_of a name) by now rewrite <- Ht1.
  assert (Ht : init_table c [(4, [BLOB c4]); (5, [BLOB c5])])
    by apply holds_with_table.
  pose proof (readhkey_rows _ _ _ Hdb Ht) as Hread.
  change (slot 4 [(4, [BLOB c4]); (5, [BLOB c5])]) with (Some c4) in Hread.
  change (slot 5 [(4, [BLOB c4]); (5, [BLOB c5])]) with (Some c5) in Hread.
  split; [|split].
  - split; [now symmetry|].
    now rewrite !(getrootnode_rows _ _ _ _ _ Hdb Ht).
  - intros _ _. split.
    + rewrite Hread. repeat split.
    + intros t2 fs2 g2 Hagain.
      (* closing, then opening again *)
      rewrite Hread in Hagain. simpl snd in Hagain.
      rewrite (destroy_closes _ c) in Hagain by (try exact Hdb; reflexivity).
      simpl dbfile in Hagain. rewrite Hfile, <- Hfs1 in Hagain.
      assert (Hstored :
        stored (<[file_of a name := image c]> (<[file_of a name := image c]> fs))
               (file_of a name) = image c).
      { unfold stored. now rewrite lookup_insert_eq. }
      assert (Hinit : image c !! "init"
                      = Some {| pk := "id"; columns := init_columns;
                                rows := [(4, [BLOB c4]); (5, [BLOB c5])] |})
        by exact Ht.
      destruct (open_existing a _ g1 name k _
                  (eq_trans (f_equal (fun m => m !! "init") Hstored) Hinit))
        as [Hre _].
      cbv zeta in Hre. rewrite Hstored in Hre.
      assert (Hschema : schema (image c) = image c).
      { destruct (schema_has (stored fs (file_of a name))) as (_ & Hn & Hu & Hp).
        apply (schema_present _ _ Hinit); subst c; unfold with_table; simpl;
          rewrite lookup_insert_ne by discriminate; assumption. }
      rewrite Hschema in Hre.
      assert (Hc : {| image := image c; journal := None |} = c) by reflexivity.
      rewrite Hc in Hre.
      change (open a (<[file_of a name := image c]>
                        (<[file_of a name := image c]> fs)) g1 name k
              = (Some t2, fs2, g2)) in Hagain.
      rewrite Hre in Hagain. injection Hagain as Ht2 _ Hg2.
      assert (Hdb2 : db t2 = Some c) by now rewrite <- Ht2.
      split; [now symmetry|].
      rewrite !(getrootnode_rows _ _ _ _ _ Hdb2 Ht).
      rewrite (readhkey_rows _ _ _ Hdb2 Ht).
      change (slot 4 [(4, [BLOB c4]); (5, [BLOB c5])]) with (Some c4).
      change (slot 5 [(4, [BLOB c4]); (5, [BLOB c5])]) with (Some c5).
      repeat split.
  - intros fs0 g0 tb t fs' g' Hthere Hreturned0.
    destruct (open_existing a fs0 g0 name k tb Hthere) as [Hopen0 Hinit].
    cbv zeta in Hopen0, Hinit.
    rewrite Hopen0 in Hreturned0. injection Hreturned0 as Ht0 _ Hg0.
    split; [now symmetry|].
    eexists. split; [now rewrite <- Ht0 | exact Hinit].
Qed.

End Properties.

(** ** The properties on the concrete store *)

Lemma putnode_getnodebyhandle_witness :
  getnodebyhandle 11 ""
    (snd (putnode 11 10 "f1" None 4 "B" fresh_table)) = (true, "B") /\
  getnodebyhandle 11 ""
    (snd (putnode 11 1 "" None 0 "B2"
       (snd (putnode 11 10 "f1" None 4 "B" fresh_table)))) = (true, "B2").
Proof.
  assert (Hdb : db fresh_table = Some (connection fresh_table)) by evaluated.
  assert (Ht : nodes_table (connection fresh_table) []) by evaluated.
  destruct (putnode_getnodebyhandle fresh_table _ _
              11 10 "f1" None 4 "B" 1 "" None 0 "B2" "" Hdb Ht)
    as (_ & G1 & _ & G2 & _).
  split; assumption.
Defined.

Lemma parent_scoped_share_selectors_witness :
  fst (drain_handles 4 (rewindhandlesoutshares_of 99 sample_table)) = [11] /\
  fst (drain_handles 4 (rewindhandlespendingshares_of 99 sample_table)) = [11].
Proof.
  assert (Hdb : db sample_table = Some (connection sample_table)) by evaluated.
  assert (Ht : nodes_table (connection sample_table)
                 (table_rows sample_table "nodes")) by evaluated.
  assert (Hinc : increasing (table_rows sample_table "nodes"))
    by in_rowid_order.
  assert (Hfuel : (List.length (table_rows sample_table "nodes") < 4)%nat)
    by (vm_compute; lia).
  destruct (parent_scoped_share_selectors sample_table _ _ 99 4
              Hdb Ht Hinc Hfuel) as (G1 & G2 & _).
  rewrite G1, G2. split; evaluated.
Defined.

Lemma children_are_files_plus_folders_witness :
  snd (getnumchildrenquery 10 0 sample_table)
  = snd (getnumchildfilesquery 10 0 sample_table)
    + snd (getnumchildfoldersquery 10 0 sample_table).
Proof.
  assert (Hdb : db sample_table = Some (connection sample_table)) by evaluated.
  assert (Ht : nodes_table (connection sample_table)
                 (table_rows sample_table "nodes")) by evaluated.
  destruct (children_are_files_plus_folders sample_table _ _ 10 0 0 0 Hdb Ht)
    as (_ & _ & _ & _ & G).
  apply G. vm_compute. reflexivity.
Defined.

Lemma handle_keys_are_decoded_as_stored_witness :
  fst (PrnGen_genblock O HANDLEKEYLENGTH) = "AAAA" /\
  getrootnode 4 "" fresh_table = (true, "KAAAA=") /\
  hkey (snd (readhkey fresh_table)) = Some {| size := 4; written := "KAAA" |} /\
  phkey (snd (readhkey fresh_table)) = Some {| size := 4; written := "KBBB" |}.
Proof.
  assert (Hfresh : stored ∅ (file_of sample_access "alice") !! "init" = None)
    by evaluated.
  assert (Hopen : open sample_access ∅ O "alice" "K"
                  = (Some fresh_table,
                     snd (fst (open sample_access ∅ O "alice" "K")), 2%nat))
    by evaluated.
  destruct (@handle_keys_are_decoded_as_stored sample_externals sample_casts
              sample_access ∅ O "alice" "K" _ _ _ Hfresh Hopen)
    as ((_ & H4 & _) & Hread & _).
  assert (Hd4 : decodes_within (fst (fresh_key O "K"))) by (vm_compute; lia).
  assert (Hd5 : decodes_within (fst (fresh_key (snd (fresh_key O "K")) "K")))
    by (vm_compute; lia).
  destruct (Hread Hd4 Hd5) as ((_ & Hh & Hp) & _).
  split; [evaluated|]. split; [exact H4|]. split.
  - rewrite Hh. evaluated.
  - rewrite Hp. evaluated.
Defined.

Lemma cursor_advance_witness :
  next "" sample_table = (false, "", sample_table) /\
  fst (drain 2 (rewinduser sample_table)) = ["U"].
Proof.
  assert (Hdb : db sample_table = Some (connection sample_table)) by evaluated.
  destruct (cursor_advance sample_table _ Hdb) as (Hidle & _).
  assert (Hnone : pStmt sample_table = None) by evaluated.
  split; [exact (proj1 (Hidle Hnone "" 0))|].
  assert (Hdb' : db (rewinduser sample_table) = Some (connection sample_table))
    by evaluated.
  destruct (cursor_advance (rewinduser sample_table) _ Hdb') as (_ & _ & Hscan).
  destruct (Hscan {| text := SELECT "user" "users" None; binds := [];
                     pos := None; current := None |}
                  "user" "users" None
                  {| pk := "userhandle"; columns := [("user", true)];
                     rows := table_rows sample_table "users" |}
                  "" 0)
    as (_ & Hdrain); [evaluated | reflexivity | evaluated | in_rowid_order |].
  destruct (Hdrain 2%nat) as (G & _); [vm_compute; lia|].
  rewrite G. evaluated.
Defined.

Lemma rootnode_index_is_unrestricted_witness :
  hkey (snd (readhkey (snd (putrootnode 4 "evil" fresh_table))))
  = Some {| size := 4; written := "evil" |}.
Proof.
  assert (Hdb : db fresh_table = Some (connection fresh_table)) by evaluated.
  assert (Ht : init_table (connection fresh_table)
                 (table_rows fresh_table "init")) by evaluated.
  assert (Hd : decodes_within "evil") by (vm_compute; lia).
  assert (H5 : forall b5, getrootnode 5 "" fresh_table = (true, b5) ->
                          decodes_within b5).
  { intros b5 Hb. vm_compute in Hb. injection Hb as <-. vm_compute. lia. }
  destruct (rootnode_index_is_unrestricted fresh_table _ _ 4 "evil" "" Hdb Ht)
    as (_ & _ & G & _).
  rewrite (G Hd H5). evaluated.
Defined.

Lemma readers_keep_data_on_failure_witness :
  snd (getnodebyhandle 99 "old" sample_table) = "old".
Proof.
  destruct (readers_keep_data_on_failure sample_table "old" 1 99 "f9")
    as (_ & _ & G & _).
  apply G. evaluated.
Defined.

Lemma delete_of_absent_row_succeeds_witness :
  delnode 99 sample_table = (true, sample_table) /\
  delpcr 99 sample_table = (true, sample_table).
Proof.
  assert (Hdb : db sample_table = Some (connection sample_table)) by evaluated.
  destruct (delete_of_absent_row_succeeds sample_table _ 99 Hdb) as (Gn & Gp).
  split.
  - apply (Gn (table_rows sample_table "nodes")); [evaluated|].
    vm_compute. repeat constructor; discriminate.
  - apply (Gp (table_rows sample_table "pcrs")); [evaluated|].
    vm_compute. repeat constructor; discriminate.
Defined.

(** C3 fails on the code for the scalar slots: [truncate] sends
    "DELETE FROM scsn", and the table of the scalar slots is named init.
    On the concrete store the sync token and both handle keys are still
    read after [truncate], while nodes, users and pending contacts are
    gone. *)
Theorem truncate_keeps_the_scalar_slots :
  let t := truncate sample_table in
  getscsn "" sample_table = (true, "tok") /\
  getscsn "" t = (true, "tok") /\
  fst (readhkey t) = true /\
  getnodebyhandle 11 "" t = (false, "") /\
  getnumchildrenquery 10 0 t = (true, 0) /\
  fst (drain 2 (rewinduser t)) = [] /\
  fst (drain 2 (rewindpcr t)) = [].
Proof. vm_compute. repeat split. Qed.

(** * Further properties of the cache *)

(** ** Handles in signed storage *)

Lemma to_uint64_to_int64 h : is_handle h -> to_uint64 (to_int64 h) = h.
Proof.
  unfold is_handle, to_uint64, to_int64. intros Hh.
  destruct (Z_lt_le_dec h (2^63)) as [Hlo|Hhi].
  - rewrite (Z.mod_small (h + 2^63)) by lia.
    rewrite Z.mod_small; lia.
  - replace (h + 2^63) with ((h - 2^63) + 1 * 2^64) by lia.
    rewrite Z_mod_plus_full, (Z.mod_small (h - 2^63)) by lia.
    replace (h - 2^63 - 2^63) with (h + (-1) * 2^64) by lia.
    rewrite Z_mod_plus_full, Z.mod_small; lia.
Qed.

Lemma to_int64_inj h h' :
  is_handle h -> is_handle h' -> to_int64 h = to_int64 h' -> h = h'.
Proof.
  intros Hh Hh' Heq.
  rewrite <- (to_uint64_to_int64 h Hh), <- (to_uint64_to_int64 h' Hh').
  now rewrite Heq.
Qed.

(** ** Rows again *)

Lemma find_deleted k rs :
  List.find (has_key k) (List.filter (fun r => negb (has_key k r)) rs) = None.
Proof.
  induction rs as [|r rs IH]; simpl; [reflexivity|].
  destruct (has_key k r) eqn:Hr; simpl; [exact IH|].
  now rewrite Hr.
Qed.

Lemma find_deleted_other k k' rs :
  k <> k' ->
  List.find (has_key k') (List.filter (fun r => negb (has_key k r)) rs)
  = List.find (has_key k') rs.
Proof.
  unfold has_key. intros Hne.
  induction rs as [|r rs IH]; simpl; [reflexivity|].
  destruct (Z.eqb_spec (fst r) k) as [Hk|Hk]; simpl.
  - destruct (Z.eqb_spec (fst r) k'); [congruence | exact IH].
  - destruct (Z.eqb_spec (fst r) k'); [reflexivity | exact IH].
Qed.

Lemma upsert_has k v rs : In (k, v) (upsert k v rs).
Proof.
  induction rs as [|[k' v'] rs IH]; simpl; [now left|].
  destruct (Z.ltb k k'); [now left|].
  destruct (Z.eqb k k'); [now left | now right].
Qed.

Lemma upsert_keeps k v rs x :
  In x rs -> fst x <> k -> In x (upsert k v rs).
Proof.
  induction rs as [|[k' v'] rs IH]; simpl; [tauto|].
  intros [<-|Hin] Hne.
  - destruct (Z.ltb k k'); [right; now left|].
    destruct (Z.eqb_spec k k') as [->|_]; [now contradiction Hne | now left].
  - destruct (Z.ltb k k'); [right; now right|].
    destruct (Z.eqb k k'); [now right | right; now apply IH].
Qed.

(** Writing a rowid that is not there adds one row and keeps the others. *)
Lemma filter_upsert_absent (f : row -> bool) k v rs :
  absent k rs ->
  List.length (List.filter f (upsert k v rs))
  = (List.length (List.filter f rs) + (if f (k, v) then 1 else 0))%nat.
Proof.
  unfold absent.
  induction 1 as [|[k' v'] rs Hr _ IH]; simpl.
  - destruct (f (k, v)); reflexivity.
  - destruct (Z.ltb k k'); simpl.
    + destruct (f (k, v)), (f (k', v')); simpl; lia.
    + destruct (Z.eqb_spec k k') as [->|_]; [now contradiction Hr|].
      simpl. destruct (f (k', v')); simpl; rewrite IH; lia.
Qed.

Lemma length_upsert_absent k v rs :
  absent k rs -> List.length (upsert k v rs) = S (List.length rs).
Proof.
  intros Habs.
  pose proof (filter_upsert_absent (fun _ => true) k v rs Habs) as Hf.
  rewrite !List.filter_true in Hf. simpl in Hf. lia.
Qed.

Section Further.

Context `{Externals} `{Casts}.

(** ** Transactions *)

Lemma begin_open t c :
  db t = Some c -> journal c = None ->
  begin t = set_db t (Some {| image := image c; journal := Some (image c) |}).
Proof.
  intros Hdb Hj. unfold begin. rewrite Hdb.
  unfold sqlite3_exec, sqlite3_prepare, sqlite3_step. simpl. now rewrite Hj.
Qed.

Lemma abort_in_transaction t c d :
  db t = Some c -> journal c = Some d ->
  abort t = set_db t (Some {| image := d; journal := None |}).
Proof.
  intros Hdb Hj. unfold abort. rewrite Hdb.
  unfold sqlite3_exec, sqlite3_prepare, sqlite3_step. simpl. now rewrite Hj.
Qed.

Lemma commit_in_transaction t c d :
  db t = Some c -> journal c = Some d ->
  commit t = set_db t (Some {| image := image c; journal := None |}).
Proof.
  intros Hdb Hj. unfold commit. rewrite Hdb.
  unfold sqlite3_exec, sqlite3_prepare, sqlite3_step. simpl. now rewrite Hj.
Qed.

Lemma set_db_twice t a b : set_db (set_db t a) b = set_db t b.
Proof. reflexivity. Qed.

Lemma outside_transaction c :
  journal c = None -> {| image := image c; journal := None |} = c.
Proof. destruct c; simpl; now intros ->. Qed.

Lemma abort_undoes_the_transaction_aux t c rs h ph fp attr sh node :
  db t = Some c -> journal c = None -> nodes_table c rs ->
  abort (snd (putnode h ph fp attr sh node (begin t))) = t.
Proof.
  intros Hdb Hj Ht.
  rewrite (begin_open _ _ Hdb Hj).
  erewrite putnode_rows; [|reflexivity|exact Ht]. simpl snd.
  erewrite abort_in_transaction; [|reflexivity|reflexivity].
  rewrite !set_db_twice, (outside_transaction _ Hj).
  now apply set_db_id.
Qed.

(** X1: on an open store with no transaction open, [begin] followed by
    a [putnode], a [delnode] or a [truncate] and then [abort] gives back
    the object as it was before [begin]; in particular a handle that had
    no row before the transaction has none after it. *)
Theorem abort_undoes_the_transaction t c rs h ph fp attr sh node data :
  db t = Some c -> journal c = None -> nodes_table c rs ->
  abort (snd (putnode h ph fp attr sh node (begin t))) = t /\
  abort (snd (delnode h (begin t))) = t /\
  abort (truncate (begin t)) = t /\
  getnodebyhandle h data (abort (snd (putnode h ph fp attr sh node (begin t))))
  = getnodebyhandle h data t.
Proof.
  intros Hdb Hj Ht.
  rewrite (begin_open _ _ Hdb Hj).
  set (c1 := {| image := image c; journal := Some (image c) |}).
  set (t1 := set_db t (Some c1)).
  assert (Hdb1 : db t1 = Some c1) by reflexivity.
  assert (Ht1 : nodes_table c1 rs) by exact Ht.
  assert (Hput : abort (snd (putnode h ph fp attr sh node t1)) = t).
  { rewrite (putnode_rows _ _ _ _ _ _ _ _ _ Hdb1 Ht1). simpl snd.
    erewrite abort_in_transaction; [|reflexivity|reflexivity].
    subst t1. rewrite !set_db_twice, (outside_transaction _ Hj).
    now apply set_db_id. }
  split; [exact Hput|]. split; [|split].
  - rewrite (delnode_rows _ _ _ _ Hdb1 Ht1). simpl snd.
    erewrite abort_in_transaction; [|reflexivity|reflexivity].
    subst t1. rewrite !set_db_twice, (outside_transaction _ Hj).
    now apply set_db_id.
  - rewrite (truncate_image _ _ Hdb1).
    erewrite abort_in_transaction; [|reflexivity|reflexivity].
    subst t1. rewrite !set_db_twice, (outside_transaction _ Hj).
    now apply set_db_id.
  - now rewrite Hput.
Qed.

(** X2: on an open store with no transaction open, [begin], [putnode],
    [commit] leaves the object [putnode] alone leaves: the row is
    written and no transaction stays open. *)
Theorem commit_keeps_the_write t c rs h ph fp attr sh node :
  db t = Some c -> journal c = None -> nodes_table c rs ->
  commit (snd (putnode h ph fp attr sh node (begin t)))
  = snd (putnode h ph fp attr sh node t).
Proof.
  intros Hdb Hj Ht.
  rewrite (begin_open _ _ Hdb Hj).
  set (c1 := {| image := image c; journal := Some (image c) |}).
  set (t1 := set_db t (Some c1)).
  assert (Hdb1 : db t1 = Some c1) by reflexivity.
  assert (Ht1 : nodes_table c1 rs) by exact Ht.
  rewrite (putnode_rows _ _ _ _ _ _ _ _ _ Hdb1 Ht1),
          (putnode_rows _ _ _ _ _ _ _ _ _ Hdb Ht). simpl snd.
  erewrite commit_in_transaction; [|reflexivity|reflexivity].
  subst t1. rewrite set_db_twice. simpl.
  unfold with_table, set_image. simpl. now rewrite Hj.
Qed.

(** X3: the destructor rolls an open transaction back before it closes
    the connection: a row put after [begin] and never committed does
    not reach the file, while a row put outside a transaction does. *)
Theorem destructor_rolls_back t c rs h ph fp attr sh node fs :
  db t = Some c -> journal c = None -> nodes_table c rs ->
  destroy (snd (putnode h ph fp attr sh node (begin t))) fs
  = <[dbfile t := image c]> fs /\
  destroy (snd (putnode h ph fp attr sh node t)) fs
  = <[dbfile t := <["nodes" := nodes_def
         (upsert (to_int64 h) (node_row ph fp attr sh node) rs)]> (image c)]> fs.
Proof.
  intros Hdb Hj Ht. split.
  - pose proof (abort_undoes_the_transaction_aux t c rs h ph fp attr sh node
                  Hdb Hj Ht) as Hab.
    unfold destroy at 1.
    destruct (db (snd (putnode h ph fp attr sh node (begin t)))) eqn:Hd.
    + rewrite Hab, Hdb. unfold sqlite3_close, committed. rewrite Hj.
      rewrite (begin_open _ _ Hdb Hj) in *.
      erewrite putnode_rows; [|reflexivity|exact Ht]. reflexivity.
    + rewrite (begin_open _ _ Hdb Hj) in Hd.
      erewrite putnode_rows in Hd; [|reflexivity|exact Ht]. discriminate.
  - rewrite (putnode_rows _ _ _ _ _ _ _ _ _ Hdb Ht). simpl snd.
    erewrite destroy_closes; [|reflexivity|exact Hj]. reflexivity.
Qed.

(** ** Closing, reopening, removing *)

Lemma destroy_commits t c fs :
  db t = Some c -> destroy t fs = <[dbfile t := committed c]> fs.
Proof.
  intros Hdb. unfold destroy, abort. rewrite Hdb. simpl.
  unfold sqlite3_exec, sqlite3_prepare, sqlite3_step, sqlite3_close, committed.
  simpl. destruct (journal c) eqn:Hj; simpl; rewrite ?Hj; reflexivity.
Qed.

Lemma complete_schema d : complete d -> schema d = d.
Proof.
  intros (Hi & Hn & Hu & Hp).
  destruct (d !! "init") as [tb|] eqn:Ei; [|contradiction].
  now apply (schema_present d tb).
Qed.

Lemma created_keeps name pkc cols d n tb :
  d !! n = Some tb -> created name pkc cols d !! n = Some tb.
Proof.
  intros Hn. unfold created. destruct (d !! name) eqn:Hd; [exact Hn|].
  rewrite lookup_insert_ne; [exact Hn|]. intros ->. congruence.
Qed.

Lemma schema_keeps d n tb : d !! n = Some tb -> schema d !! n = Some tb.
Proof. intros Hn. unfold schema. now do 4 apply created_keeps. Qed.

(** X4: what the destructor leaves in the file is what [open] finds
    there.  For an object with an open connection on the file of an
    account whose committed image has the four tables, destroying it
    and opening the account again succeeds, draws nothing from the
    generator, and yields an object without cursor whose connection
    holds exactly the committed image. *)
Theorem reopen_finds_the_committed_image a name k g t c fs :
  db t = Some c -> dbfile t = file_of a name -> complete (committed c) ->
  exists t' fs',
    open a (destroy t fs) g name k = (Some t', fs', g) /\
    db t' = Some {| image := committed c; journal := None |} /\
    pStmt t' = None.
Proof.
  intros Hdb Hfile Hc.
  rewrite (destroy_commits _ _ _ Hdb), Hfile.
  assert (Hstored : stored (<[file_of a name := committed c]> fs) (file_of a name)
                    = committed c).
  { unfold stored. now rewrite lookup_insert_eq. }
  destruct (committed c !! "init") as [tb|] eqn:Ei; [|now destruct Hc].
  destruct (open_existing a (<[file_of a name := committed c]> fs) g name k tb)
    as [Hopen _].
  { now rewrite Hstored. }
  cbv zeta in Hopen. rewrite Hstored, (complete_schema _ Hc) in Hopen.
  eexists. eexists. split; [exact Hopen|]. split; reflexivity.
Qed.

(** X5: [remove] on an object with an open connection unlinks its file,
    so that opening the account again starts a fresh store: the schema
    is created anew, two new keys are drawn from the generator and
    nothing of the nodes is left. *)
Theorem remove_then_open_starts_afresh a name k g t c fs :
  db t = Some c -> dbfile t = file_of a name ->
  snd (remove t fs) !! file_of a name = None /\
  exists t' fs',
    open a (snd (remove t fs)) g name k
    = (Some t', fs', snd (fresh_key (snd (fresh_key g k)) k)) /\
    table_rows t' "init"
    = [(4, [BLOB (fst (fresh_key g k))]);
       (5, [BLOB (fst (fresh_key (snd (fresh_key g k)) k))])] /\
    table_rows t' "nodes" = [] /\
    table_rows t' "users" = [] /\
    table_rows t' "pcrs" = [].
Proof.
  intros Hdb Hfile.
  assert (Hgone : snd (remove t fs) !! file_of a name = None).
  { unfold remove, abort. rewrite Hdb. simpl.
    unfold unlinklocal, path2local. simpl.
    rewrite Hfile. apply lookup_delete_eq. }
  split; [exact Hgone|].
  assert (Hstored : stored (snd (remove t fs)) (file_of a name) = ∅).
  { unfold stored. now rewrite Hgone. }
  pose proof (open_fresh a (snd (remove t fs)) g name k) as Hopen.
  rewrite Hstored in Hopen. specialize (Hopen (lookup_empty _)).
  cbv zeta in Hopen.
  eexists. eexists. split; [exact Hopen|].
  unfold table_rows, with_table. simpl.
  rewrite lookup_insert_eq, !lookup_insert_ne by discriminate.
  repeat split.
Qed.

(** X6: on a file that holds no table but tables of the cache, [open]
    keeps each table it finds, rows included: its CREATE statements and
    the writing of the keys replace no table that is there. *)
Theorem open_keeps_existing_tables a fs g name k n tb :
  only_cache_tables (stored fs (file_of a name)) = true ->
  stored fs (file_of a name) !! n = Some tb ->
  exists t c fs' g',
    open a fs g name k = (Some t, fs', g') /\
    db t = Some c /\ image c !! n = Some tb.
Proof.
  intros _ Hn.
  destruct (stored fs (file_of a name) !! "init") as [ti|] eqn:Ei.
  - destruct (open_existing a fs g name k ti Ei) as [Hopen _].
    cbv zeta in Hopen.
    eexists. eexists. eexists. eexists.
    split; [exact Hopen|]. split; [reflexivity|].
    simpl. now apply schema_keeps.
  - pose proof (open_fresh a fs g name k Ei) as Hopen. cbv zeta in Hopen.
    eexists. eexists. eexists. eexists.
    split; [exact Hopen|]. split; [reflexivity|].
    unfold with_table. simpl.
    rewrite lookup_insert_ne; [now apply schema_keeps|].
    intros <-. congruence.
Qed.

(** ** Nodes *)

Lemma after_put t c rs h ph fp attr sh node :
  db t = Some c -> nodes_table c rs ->
  exists c',
    db (snd (putnode h ph fp attr sh node t)) = Some c' /\
    nodes_table c' (upsert (to_int64 h) (node_row ph fp attr sh node) rs).
Proof.
  intros Hdb Ht. rewrite (putnode_rows _ _ _ _ _ _ _ _ _ Hdb Ht).
  eexists. split; [reflexivity | apply holds_with_table].
Qed.

Lemma after_delete t c rs h :
  db t = Some c -> nodes_table c rs ->
  exists c',
    db (snd (delnode h t)) = Some c' /\
    nodes_table c' (List.filter (fun r => negb (has_key (to_int64 h) r)) rs).
Proof.
  intros Hdb Ht. rewrite (delnode_rows _ _ _ _ Hdb Ht).
  eexists. split; [reflexivity | apply holds_with_table].
Qed.

(** X7: putting a node under a handle that has no row adds one child to
    its parent, counted as a folder when the fingerprint is empty and as
    a file otherwise (the table staying below 2^31 rows). *)
Theorem putnode_counts_one_more_child t c rs h ph fp attr sh node :
  db t = Some c -> nodes_table c rs -> absent (to_int64 h) rs ->
  Z.of_nat (List.length rs) + 1 < 2^31 ->
  let t' := snd (putnode h ph fp attr sh node t) in
  let empty := Nat.eqb (String.length fp) 0 in
  snd (getnumchildrenquery ph 0 t') = snd (getnumchildrenquery ph 0 t) + 1 /\
  snd (getnumchildfilesquery ph 0 t')
  = snd (getnumchildfilesquery ph 0 t) + (if empty then 0 else 1) /\
  snd (getnumchildfoldersquery ph 0 t')
  = snd (getnumchildfoldersquery ph 0 t) + (if empty then 1 else 0).
Proof.
  intros Hdb Ht Habs Hsmall t' empty.
  destruct (after_put t c rs h ph fp attr sh node Hdb Ht) as (c' & Hdb' & Ht').
  fold t' in Hdb'.
  rewrite (getnumchildrenquery_rows _ _ _ _ _ Hdb' Ht'),
          (getnumchildfilesquery_rows _ _ _ _ _ Hdb' Ht'),
          (getnumchildfoldersquery_rows _ _ _ _ _ Hdb' Ht'),
          (getnumchildrenquery_rows _ _ _ _ _ Hdb Ht),
          (getnumchildfilesquery_rows _ _ _ _ _ Hdb Ht),
          (getnumchildfoldersquery_rows _ _ _ _ _ Hdb Ht).
  simpl snd. unfold counted.
  rewrite !(filter_upsert_absent _ _ _ _ Habs).
  pose proof (List.filter_length_le (is_child ph) rs).
  pose proof (List.filter_length_le (is_child_file ph) rs).
  pose proof (List.filter_length_le (is_child_folder ph) rs).
  assert (Hc : is_child ph (to_int64 h, node_row ph fp attr sh node) = true).
  { unfold is_child, int_at. simpl. apply Z.eqb_refl. }
  assert (Hf : is_child_file ph (to_int64 h, node_row ph fp attr sh node)
               = negb empty).
  { unfold is_child_file. rewrite Hc. unfold null_at, node_row. simpl.
    subst empty. now destruct (Nat.eqb (String.length fp) 0). }
  assert (Hd : is_child_folder ph (to_int64 h, node_row ph fp attr sh node)
               = empty).
  { unfold is_child_folder. rewrite Hc. unfold null_at, node_row. simpl.
    subst empty. now destruct (Nat.eqb (String.length fp) 0). }
  rewrite Hc, Hf, Hd.
  destruct empty; simpl; rewrite !to_int_small; lia.
Qed.

Lemma getnodebyfingerprint_rows t c rs fp data :
  db t = Some c -> nodes_table c rs ->
  getnodebyfingerprint fp data t
  = match List.find (fingerprint_is fp) rs with
    | Some r => (true, value_blob (List.nth 4 (snd r) NULL))
    | None => (false, data)
    end.
Proof.
  intros Hdb Ht. unfold nodes_table, holds in Ht.
  unfold getnodebyfingerprint, read_one. rewrite Hdb.
  unfold sqlite3_prepare, compiles, select_node_by_fingerprint. rewrite Ht. cbn.
  unfold sqlite3_step. cbn. rewrite Ht.
  unfold next_row. cbn.
  rewrite (find_ext _ (fingerprint_is fp) rs).
  - now destruct (List.find _ rs).
  - intros r. unfold fingerprint_is.
    destruct (List.nth 1 (snd r) NULL); try reflexivity.
    cbn. now destruct (String.eqb b fp).
Qed.

Lemma find_unmatched (f : row -> bool) rs :
  Forall (fun r => f r = false) rs -> List.find f rs = None.
Proof.
  induction 1 as [|r rs Hr _ IH]; simpl; [reflexivity|]. now rewrite Hr.
Qed.

Lemma find_upsert_unmatched (f : row -> bool) k v rs :
  Forall (fun r => f r = false) rs ->
  List.find f (upsert k v rs) = if f (k, v) then Some (k, v) else None.
Proof.
  induction 1 as [|[k' v'] rs Hr Hrs IH]; simpl; [reflexivity|].
  destruct (Z.ltb k k'); simpl.
  - destruct (f (k, v)); [reflexivity|].
    now rewrite Hr, (find_unmatched f rs Hrs).
  - destruct (Z.eqb k k'); simpl.
    + destruct (f (k, v)); [reflexivity|]. exact (find_unmatched f rs Hrs).
    + now rewrite Hr.
Qed.

(** X8: a node put with a non-empty fingerprint that no other row
    carries is what [getnodebyfingerprint] returns for it; a node put
    with an empty fingerprint is stored without fingerprint, and
    [getnodebyfingerprint] of the empty fingerprint finds nothing and
    leaves [data] as it was. *)
Theorem putnode_getnodebyfingerprint t c rs h ph fp attr sh node data :
  db t = Some c -> nodes_table c rs ->
  Forall (fun r => fingerprint_is fp r = false) rs ->
  getnodebyfingerprint fp data (snd (putnode h ph fp attr sh node t))
  = if Nat.eqb (String.length fp) 0 then (false, data) else (true, node).
Proof.
  intros Hdb Ht Hnone.
  destruct (after_put t c rs h ph fp attr sh node Hdb Ht) as (c' & Hdb' & Ht').
  rewrite (getnodebyfingerprint_rows _ _ _ _ _ Hdb' Ht'),
          (find_upsert_unmatched _ _ _ _ Hnone).
  unfold fingerprint_is, node_row. simpl.
  destruct (Nat.eqb (String.length fp) 0); [reflexivity|].
  now rewrite String.eqb_refl.
Qed.

(** X9: [delnode] removes the row of its handle and no other, and
    [putnode] writes the row of its handle and no other: after
    [delnode h], [getnodebyhandle h] finds nothing, and for a different
    64-bit handle [getnodebyhandle] returns after either what it
    returned before. *)
Theorem node_writes_touch_one_handle t c rs (h h' : handle)
    ph fp attr sh node data :
  db t = Some c -> nodes_table c rs ->
  getnodebyhandle h data (snd (delnode h t)) = (false, data) /\
  (is_handle h -> is_handle h' -> h <> h' ->
   getnodebyhandle h' data (snd (delnode h t)) = getnodebyhandle h' data t /\
   getnodebyhandle h' data (snd (putnode h ph fp attr sh node t))
   = getnodebyhandle h' data t).
Proof.
  intros Hdb Ht.
  destruct (after_delete t c rs h Hdb Ht) as (cd & Hdbd & Htd).
  destruct (after_put t c rs h ph fp attr sh node Hdb Ht) as (cp & Hdbp & Htp).
  rewrite !(getnodebyhandle_rows _ _ _ _ _ Hdbd Htd),
          !(getnodebyhandle_rows _ _ _ _ _ Hdbp Htp),
          !(getnodebyhandle_rows _ _ _ _ _ Hdb Ht).
  split; [now rewrite find_deleted|].
  intros Hh Hh' Hne.
  assert (Hk : to_int64 h <> to_int64 h')
    by (intros Heq; apply Hne; now apply to_int64_inj).
  now rewrite (find_deleted_other _ _ _ Hk), (find_upsert_other _ _ _ _ Hk).
Qed.

(** ** Cursors *)

Lemma rewind_started t c q ph :
  db t = Some c -> compiles (image c) q = true ->
  rewind q ph t = set_pStmt t (Some (started q ph)).
Proof.
  intros Hdb Hq. unfold rewind, sqlite3_prepare. rewrite Hdb, Hq. simpl.
  destruct ph; reflexivity.
Qed.

Lemma rewind_refused t c q ph :
  db t = Some c -> compiles (image c) q = false ->
  rewind q ph t = set_pStmt t None.
Proof.
  intros Hdb Hq. unfold rewind, sqlite3_prepare. rewrite Hdb, Hq. reflexivity.
Qed.

(** X10: starting a cursor discards the one that was there: the object
    after two [rewind...] calls is the object after the second alone.
    When the statement does not compile because its table is missing,
    the object is left without cursor and [next] and [nexthandle]
    return false. *)
Theorem rewind_replaces_the_cursor t q1 ph1 q2 ph2 :
  rewind q2 ph2 (rewind q1 ph1 t) = rewind q2 ph2 t /\
  (forall c col tn w data h,
     db t = Some c -> q2 = SELECT col tn w -> image c !! tn = None ->
     pStmt (rewind q2 ph2 t) = None /\
     fst (fst (next data (rewind q2 ph2 t))) = false /\
     fst (fst (nexthandle h (rewind q2 ph2 t))) = false).
Proof.
  split.
  - destruct (db t) as [c|] eqn:Hdb.
    + assert (Hdb1 : db (rewind q1 ph1 t) = Some c).
      { unfold rewind. rewrite Hdb. simpl.
        destruct (snd (sqlite3_prepare c q1)), ph1; exact Hdb. }
      destruct (compiles (image c) q2) eqn:Hq.
      * rewrite (rewind_started _ _ _ _ Hdb1 Hq), (rewind_started _ _ _ _ Hdb Hq).
        unfold rewind. rewrite Hdb. simpl.
        destruct (snd (sqlite3_prepare c q1)), ph1; reflexivity.
      * rewrite (rewind_refused _ _ _ _ Hdb1 Hq), (rewind_refused _ _ _ _ Hdb Hq).
        unfold rewind. rewrite Hdb. simpl.
        destruct (snd (sqlite3_prepare c q1)), ph1; reflexivity.
    + unfold rewind at 2 3. rewrite Hdb. unfold rewind. now rewrite Hdb.
  - intros c col tn w data h Hdb -> Hnone.
    assert (Hq : compiles (image c) (SELECT col tn w) = false)
      by (simpl; now rewrite Hnone).
    rewrite (rewind_refused _ _ _ _ Hdb Hq).
    unfold next, nexthandle. simpl. rewrite Hdb. repeat split.
Qed.

Lemma started_text q ph : text (started q ph) = q.
Proof.
  unfold started, sqlite3_bind_int64, bind. destruct ph; [|reflexivity].
  now destruct (_ && _).
Qed.

Lemma started_pos q ph : pos (started q ph) = None.
Proof.
  unfold started, sqlite3_bind_int64, bind. destruct ph; [|reflexivity].
  now destruct (_ && _).
Qed.

Lemma drain_handles_nodes t c rs q w ph fuel :
  db t = Some c -> nodes_table c rs -> increasing rs ->
  q = SELECT "nodehandle" "nodes" w ->
  compiles (image c) q = true ->
  (List.length rs < fuel)%nat ->
  drain_handles fuel (rewind q ph t)
  = (List.map (fun r => to_uint64 (fst r))
       (List.filter (selects (nodes_def rs) (binds (started q ph)) w) rs),
     set_pStmt t None).
Proof.
  intros Hdb Ht Hinc -> Hq Hfuel.
  rewrite (rewind_started _ _ _ _ Hdb Hq).
  set (s := started (SELECT "nodehandle" "nodes" w) ph).
  assert (Hrem : remaining (nodes_def rs) w s
                 = List.filter (selects (nodes_def rs) (binds s) w) rs).
  { unfold remaining. simpl rows. apply List.filter_ext. intros r.
    subst s. now rewrite started_pos. }
  rewrite (drain_handles_scan c "nodehandle" "nodes" w (nodes_def rs) Ht Hinc
             _ fuel (set_pStmt t (Some s)) s Hdb eq_refl
             (started_text _ ph) Hrem).
  - reflexivity.
  - pose proof (List.filter_length_le (selects (nodes_def rs) (binds s) w) rs).
    lia.
Qed.

Lemma nodes_compiles c rs q w :
  nodes_table c rs -> q = SELECT "nodehandle" "nodes" w ->
  where_ok (nodes_def rs) w = true -> compiles (image c) q = true.
Proof.
  intros Ht -> Hw. unfold nodes_table, holds in Ht. simpl. rewrite Ht.
  exact Hw.
Qed.

(** X11: on an open store whose node table is in rowid order, calling
    [nexthandle] until it returns false after [rewindhandleschildren(P)]
    returns the handles of exactly the rows whose parent is P, once
    each, and leaves the object without cursor. *)
Theorem children_cursor_enumerates_the_children t c rs (P : handle) fuel :
  db t = Some c -> nodes_table c rs -> increasing rs ->
  (List.length rs < fuel)%nat ->
  drain_handles fuel (rewindhandleschildren P t)
  = (List.map (fun r => to_uint64 (fst r)) (List.filter (is_child P) rs),
     set_pStmt t None).
Proof.
  intros Hdb Ht Hinc Hfuel. unfold rewindhandleschildren.
  erewrite drain_handles_nodes;
    [ | exact Hdb | exact Ht | exact Hinc | reflexivity
      | eapply nodes_compiles; [exact Ht | reflexivity | reflexivity]
      | exact Hfuel ].
  do 2 f_equal. apply List.filter_ext. intros r.
  unfold is_child, int_at. by_columns r.
Qed.

Lemma upsert_length_le k v rs :
  (List.length (upsert k v rs) <= S (List.length rs))%nat.
Proof.
  induction rs as [|[k' v'] rs IH]; simpl; [lia|].
  destruct (Z.ltb k k'); simpl; [lia|].
  destruct (Z.eqb k k'); simpl; lia.
Qed.

(** X12: a 64-bit handle comes back from the store as it went in, also
    when it is 2^63 or more and is stored as a negative rowid: after
    [putnode h P ...], the cursor over the children of P returns [h]. *)
Theorem children_cursor_returns_the_handle_put
    t c rs (h P : handle) fp attr sh node fuel :
  db t = Some c -> nodes_table c rs -> increasing rs -> is_handle h ->
  (S (List.length rs) < fuel)%nat ->
  In h (fst (drain_handles fuel
              (rewindhandleschildren P (snd (putnode h P fp attr sh node t))))).
Proof.
  intros Hdb Ht Hinc Hh Hfuel.
  destruct (after_put t c rs h P fp attr sh node Hdb Ht) as (c' & Hdb' & Ht').
  pose proof (upsert_length_le (to_int64 h) (node_row P fp attr sh node) rs).
  unfold rewindhandleschildren.
  erewrite drain_handles_nodes;
    [ | exact Hdb' | exact Ht' | exact (upsert_increasing _ _ _ Hinc)
      | reflexivity
      | eapply nodes_compiles; [exact Ht' | reflexivity | reflexivity]
      | lia ].
  simpl fst. rewrite <- (to_uint64_to_int64 h Hh) at 1.
  apply (List.in_map (fun r => to_uint64 (fst r)) _
           (to_int64 h, node_row P fp attr sh node)).
  apply List.filter_In. split; [apply upsert_has|].
  cbn. now rewrite Z.eqb_refl.
Qed.

(** X13: the selectors without parent.  After
    [rewindhandlesencryptednodes] the cursor returns the rows whose
    attribute string is not NULL, after [rewindhandlesoutshares()] those
    with share state 1 or 4, after [rewindhandlespendingshares()] those
    with share state 3 or 4. *)
Theorem unscoped_node_cursors t c rs fuel :
  db t = Some c -> nodes_table c rs -> increasing rs ->
  (List.length rs < fuel)%nat ->
  drain_handles fuel (rewindhandlesencryptednodes t)
  = (List.map (fun r => to_uint64 (fst r)) (List.filter has_attrstring rs),
     set_pStmt t None) /\
  drain_handles fuel (rewindhandlesoutshares t)
  = (List.map (fun r => to_uint64 (fst r)) (List.filter (share_in 1 4) rs),
     set_pStmt t None) /\
  drain_handles fuel (rewindhandlespendingshares t)
  = (List.map (fun r => to_uint64 (fst r)) (List.filter (share_in 3 4) rs),
     set_pStmt t None).
Proof.
  intros Hdb Ht Hinc Hfuel.
  unfold rewindhandlesencryptednodes, rewindhandlesoutshares,
    rewindhandlespendingshares, select_outshares, select_pendingshares.
  repeat split;
    (erewrite drain_handles_nodes;
     [ | exact Hdb | exact Ht | exact Hinc | reflexivity
       | eapply nodes_compiles; [exact Ht | reflexivity | reflexivity]
       | exact Hfuel ]);
    do 2 f_equal; apply List.filter_ext; intros r;
    unfold has_attrstring, share_in, null_at, int_at; by_columns r.
Qed.

(** ** Users and pending contacts *)

Lemma putuser_rows t c rs h u :
  db t = Some c -> users_table c rs ->
  putuser h u t
  = (true, set_db t (Some (with_table c "users" "userhandle" [("user", true)]
                             (upsert (to_int64 h) [BLOB u] rs)))).
Proof.
  intros Hdb Ht. unfold users_table, holds in Ht.
  unfold putuser, write_one. rewrite Hdb.
  unfold sqlite3_prepare, compiles. rewrite Ht. cbn.
  unfold sqlite3_step. cbn. rewrite Ht. cbn. reflexivity.
Qed.

Lemma putpcr_rows t c rs id p :
  db t = Some c -> pcrs_table c rs ->
  putpcr id p t
  = (true, set_db t (Some (with_table c "pcrs" "id" [("pcr", true)]
                             (upsert (to_int64 id) [BLOB p] rs)))).
Proof.
  intros Hdb Ht. unfold pcrs_table, holds in Ht.
  unfold putpcr, write_one. rewrite Hdb.
  unfold sqlite3_prepare, compiles. rewrite Ht. cbn.
  unfold sqlite3_step. cbn. rewrite Ht. cbn. reflexivity.
Qed.

Lemma remaining_all tb q :
  remaining tb None (prepared q) = rows tb.
Proof. unfold remaining. simpl. apply List.filter_true. Qed.

Lemma drain_users t c rs fuel :
  db t = Some c -> users_table c rs -> increasing rs ->
  (List.length rs < fuel)%nat ->
  drain fuel (rewinduser t) = (List.map payload_of rs, set_pStmt t None).
Proof.
  intros Hdb Ht Hinc Hfuel. unfold rewinduser.
  rewrite (rewind_started _ c) by
    (try exact Hdb; unfold users_table, holds in Ht; simpl; now rewrite Ht).
  exact (drain_scan c "user" "users" None
           {| pk := "userhandle"; columns := [("user", true)]; rows := rs |}
           Ht Hinc rs fuel
           (set_pStmt t (Some (prepared (SELECT "user" "users" None))))
           (prepared (SELECT "user" "users" None))
           Hdb eq_refl eq_refl (remaining_all _ _) Hfuel).
Qed.

Lemma drain_pcrs t c rs fuel :
  db t = Some c -> pcrs_table c rs -> increasing rs ->
  (List.length rs < fuel)%nat ->
  drain fuel (rewindpcr t) = (List.map payload_of rs, set_pStmt t None).
Proof.
  intros Hdb Ht Hinc Hfuel. unfold rewindpcr.
  rewrite (rewind_started _ c) by
    (try exact Hdb; unfold pcrs_table, holds in Ht; simpl; now rewrite Ht).
  exact (drain_scan c "pcr" "pcrs" None
           {| pk := "id"; columns := [("pcr", true)]; rows := rs |}
           Ht Hinc rs fuel
           (set_pStmt t (Some (prepared (SELECT "pcr" "pcrs" None))))
           (prepared (SELECT "pcr" "pcrs" None))
           Hdb eq_refl eq_refl (remaining_all _ _) Hfuel).
Qed.

(** X14: on an open store whose user and pending-contact tables are in
    rowid order, calling [next] until it returns false after
    [rewinduser] returns the payload of every user, and after
    [rewindpcr] the payload of every pending contact, in rowid order and
    once each, and leaves the object without cursor. *)
Theorem user_and_pcr_cursors_enumerate_all t c us ps fuel :
  db t = Some c ->
  (users_table c us -> increasing us -> (List.length us < fuel)%nat ->
   drain fuel (rewinduser t) = (List.map payload_of us, set_pStmt t None)) /\
  (pcrs_table c ps -> increasing ps -> (List.length ps < fuel)%nat ->
   drain fuel (rewindpcr t) = (List.map payload_of ps, set_pStmt t None)).
Proof.
  intros Hdb. split; intros Ht Hinc Hfuel.
  - now apply (drain_users t c).
  - now apply (drain_pcrs t c).
Qed.

(** X15: [putuser] writes one row per user handle.  After [putuser h u]
    the users cursor returns [u]; it returns one payload more than
    before when [h] had no row, and as many as before when [h] had one
    (the payload is replaced). *)
Theorem putuser_is_an_upsert t c us (h : handle) (u u0 : string) fuel :
  db t = Some c -> users_table c us -> increasing us ->
  (S (List.length us) < fuel)%nat ->
  let before := fst (drain fuel (rewinduser t)) in
  let after1 := fst (drain fuel (rewinduser (snd (putuser h u t)))) in
  let after2 :=
    fst (drain fuel (rewinduser (snd (putuser h u (snd (putuser h u0 t)))))) in
  In u after1 /\
  (absent (to_int64 h) us -> List.length after1 = S (List.length before)) /\
  after2 = after1.
Proof.
  intros Hdb Ht Hinc Hfuel before after1 after2. subst before after1 after2.
  pose proof (upsert_length_le (to_int64 h) [BLOB u] us) as Hle.
  rewrite (putuser_rows _ _ _ _ u Hdb Ht),
          (putuser_rows _ _ _ _ u0 Hdb Ht). simpl snd.
  erewrite (putuser_rows _ _ _ h u); [|reflexivity|apply holds_with_table].
  simpl snd. rewrite set_db_twice, with_table_twice, upsert_upsert.
  erewrite (drain_users _ _ (upsert (to_int64 h) [BLOB u] us));
    [ | reflexivity | apply holds_with_table | now apply upsert_increasing | lia ].
  rewrite (drain_users _ _ _ _ Hdb Ht Hinc) by lia.
  simpl fst. split; [|split].
  - apply (List.in_map payload_of _ (to_int64 h, [BLOB u])), upsert_has.
  - intros Habs.
    now rewrite !List.length_map, (length_upsert_absent _ _ _ Habs).
  - reflexivity.
Qed.

Lemma filter_upsert_restores k v rs :
  absent k rs ->
  List.filter (fun r => negb (has_key k r)) (upsert k v rs) = rs.
Proof.
  unfold absent, has_key.
  induction 1 as [|[k' v'] rs Hr Hrs IH]; simpl.
  - now rewrite Z.eqb_refl.
  - simpl in Hr.
    destruct (Z.ltb k k'); simpl.
    + rewrite Z.eqb_refl. simpl.
      destruct (Z.eqb_spec k' k); [contradiction|]. simpl.
      f_equal. exact (filter_absent k rs Hrs).
    + destruct (Z.eqb_spec k k') as [->|_]; [contradiction|]. simpl.
      destruct (Z.eqb_spec k' k); [contradiction|]. simpl.
      now rewrite IH.
Qed.

(** X16: putting a row under a handle that had none and deleting it
    again gives back the object, and so the store, as it was, for nodes
    ([putnode], [delnode]) and for pending contacts ([putpcr],
    [delpcr]). *)
Theorem put_then_delete_restores t c (h : handle) ph fp attr sh node p :
  db t = Some c ->
  (forall rs, nodes_table c rs -> absent (to_int64 h) rs ->
     delnode h (snd (putnode h ph fp attr sh node t)) = (true, t)) /\
  (forall rs, pcrs_table c rs -> absent (to_int64 h) rs ->
     delpcr h (snd (putpcr h p t)) = (true, t)).
Proof.
  intros Hdb. split; intros rs Ht Habs.
  - rewrite (putnode_rows _ _ _ _ _ _ _ _ _ Hdb Ht). simpl snd.
    erewrite delnode_rows; [|reflexivity|apply holds_with_table].
    rewrite set_db_twice, with_table_twice, (filter_upsert_restores _ _ _ Habs).
    unfold nodes_columns.
    now rewrite (with_table_id _ _ _ _ _ Ht), (set_db_id _ _ Hdb).
  - rewrite (putpcr_rows _ _ _ _ _ Hdb Ht). simpl snd.
    erewrite delpcr_rows; [|reflexivity|apply holds_with_table].
    rewrite set_db_twice, with_table_twice, (filter_upsert_restores _ _ _ Habs).
    now rewrite (with_table_id _ _ _ _ _ Ht), (set_db_id _ _ Hdb).
Qed.

(** ** Scalar slots and keys *)

(** X17: [readhkey] fails without changing the object when slot 4 is
    empty; when slot 4 is filled, with a content whose decoded bytes fit
    a key block, and slot 5 is empty, it fails after it has replaced
    [hkey] by a block that holds the bytes decoded from slot 4, leaving
    [phkey] as it was. *)
Theorem readhkey_fails_on_a_missing_slot t c rs :
  db t = Some c -> init_table c rs ->
  (fst (getrootnode 4 "" t) = false -> readhkey t = (false, t)) /\
  (forall b4, getrootnode 4 "" t = (true, b4) ->
     fst (getrootnode 5 "" t) = false -> decodes_within b4 ->
     readhkey t
     = (false,
        set_hkey t {| size := HANDLEKEYLENGTH;
                      written := Base64_atob b4 (String.length b4) |}) /\
     phkey (snd (readhkey t)) = phkey t).
Proof.
  intros Hdb Ht.
  rewrite !(getrootnode_rows _ _ _ _ _ Hdb Ht), (readhkey_rows _ _ _ Hdb Ht).
  split.
  - destruct (slot 4 rs); [discriminate | reflexivity].
  - intros b4 H4 H5 _.
    destruct (slot 4 rs) as [b|]; [|discriminate].
    injection H4 as ->.
    destruct (slot 5 rs); [discriminate|]. split; reflexivity.
Qed.

Lemma putscsn_putrootnode d t : putscsn d t = putrootnode 0 d t.
Proof. reflexivity. Qed.

(** X18: the sync token has a slot of its own.  On an open store
    [putscsn d] succeeds and [getscsn] then returns [d]; it changes no
    slot of another index, so [readhkey] succeeds after it exactly when
    it did before; and [putrootnode] at an index other than 0 leaves
    what [getscsn] returns as it was. *)
Theorem sync_token_slot_is_separate t c rs (d data : string) (i : Z) :
  db t = Some c -> init_table c rs ->
  fst (putscsn d t) = true /\
  getscsn data (snd (putscsn d t)) = (true, d) /\
  fst (readhkey (snd (putscsn d t))) = fst (readhkey t) /\
  (i <> 0 ->
   getrootnode i data (snd (putscsn d t)) = getrootnode i data t /\
   getscsn data (snd (putrootnode i d t)) = getscsn data t).
Proof.
  intros Hdb Ht.
  rewrite putscsn_putrootnode, !getscsn_getrootnode.
  rewrite !(putrootnode_rows _ _ _ _ _ Hdb Ht). simpl fst. simpl snd.
  set (t0 := set_db t (Some (with_table c "init" "id" init_columns
                               (upsert 0 [BLOB d] rs)))).
  set (ti := set_db t (Some (with_table c "init" "id" init_columns
                               (upsert i [BLOB d] rs)))).
  assert (Ht0 : init_table (with_table c "init" "id" init_columns
                              (upsert 0 [BLOB d] rs)) (upsert 0 [BLOB d] rs))
    by apply holds_with_table.
  assert (Hti : init_table (with_table c "init" "id" init_columns
                              (upsert i [BLOB d] rs)) (upsert i [BLOB d] rs))
    by apply holds_with_table.
  rewrite !(getrootnode_rows t0 _ _ _ _ eq_refl Ht0),
          !(getrootnode_rows ti _ _ _ _ eq_refl Hti),
          !(getrootnode_rows _ _ _ _ _ Hdb Ht),
          (readhkey_rows t0 _ _ eq_refl Ht0), (readhkey_rows _ _ _ Hdb Ht).
  rewrite slot_upsert, !(slot_upsert_other 0) by discriminate.
  split; [reflexivity|]. split; [reflexivity|]. split.
  - destruct (slot 4 rs); [|reflexivity]. now destruct (slot 5 rs).
  - intros Hi.
    rewrite (slot_upsert_other 0 i) by (intros Heq; now apply Hi).
    rewrite (slot_upsert_other i 0) by exact Hi.
    split; reflexivity.
Qed.

(** ** Failures *)

(** X19: a writer or deleter whose statement does not compile because
    its table is missing returns false and leaves the object, and with
    it the store, as it was. *)
Theorem write_to_a_missing_table_changes_nothing t c
    (h ph : handle) fp attr sh (d : string) (i : Z) :
  db t = Some c ->
  (image c !! "nodes" = None ->
   putnode h ph fp attr sh d t = (false, t) /\ delnode h t = (false, t)) /\
  (image c !! "users" = None -> putuser h d t = (false, t)) /\
  (image c !! "pcrs" = None ->
   putpcr h d t = (false, t) /\ delpcr h t = (false, t)) /\
  (image c !! "init" = None ->
   putscsn d t = (false, t) /\ putrootnode i d t = (false, t)).
Proof.
  intros Hdb.
  unfold putnode, delnode, putuser, putpcr, delpcr, putscsn, putrootnode,
    write_one, sqlite3_prepare, compiles, insert_node, insert_init.
  rewrite Hdb.
  repeat split; intros;
    match goal with Hn : _ = None |- _ => rewrite Hn end; reflexivity.
Qed.

Lemma count_query_zero c q ph :
  fst (count_query c q ph) = false -> snd (count_query c q ph) = 0.
Proof.
  unfold count_query.
  destruct (sqlite3_prepare c q) as [[] [s|]]; simpl; try reflexivity.
  destruct (sqlite3_bind_int64 s 1 (to_int64 ph)) as [[] s']; simpl;
    try reflexivity.
  destruct (sqlite3_step c s') as [[[] ?] ?]; simpl;
    try reflexivity; discriminate.
Qed.

(** X20: unlike the readers, the three counters do write their output
    when they fail on an open connection: the count is then 0, whatever
    it held; only on a null connection is it left as it was. *)
Theorem counters_reset_the_count_on_failure t (ph : handle) (n : Z) :
  (db t = None ->
   getnumchildrenquery ph n t = (false, n) /\
   getnumchildfilesquery ph n t = (false, n) /\
   getnumchildfoldersquery ph n t = (false, n)) /\
  (db t <> None ->
   (fst (getnumchildrenquery ph n t) = false ->
    snd (getnumchildrenquery ph n t) = 0) /\
   (fst (getnumchildfilesquery ph n t) = false ->
    snd (getnumchildfilesquery ph n t) = 0) /\
   (fst (getnumchildfoldersquery ph n t) = false ->
    snd (getnumchildfoldersquery ph n t) = 0)).
Proof.
  unfold getnumchildrenquery, getnumchildfilesquery, getnumchildfoldersquery.
  destruct (db t) as [c|]; split; intros Hdb; try congruence.
  - repeat split; apply count_query_zero.
  - repeat split.
Qed.

End Further.

(** ** The further properties on the concrete store *)

Lemma abort_undoes_the_transaction_witness :
  abort (snd (putnode 99 1 "" None 0 "Z" (begin sample_table))) = sample_table.
Proof.
  assert (Hdb : db sample_table = Some (connection sample_table)) by evaluated.
  assert (Hj : journal (connection sample_table) = None) by evaluated.
  assert (Ht : nodes_table (connection sample_table)
                 (table_rows sample_table "nodes")) by evaluated.
  exact (proj1 (abort_undoes_the_transaction sample_table _ _
                  99 1 "" None 0 "Z" "" Hdb Hj Ht)).
Defined.

Lemma commit_keeps_the_write_witness :
  commit (snd (putnode 99 1 "" None 0 "Z" (begin sample_table)))
  = snd (putnode 99 1 "" None 0 "Z" sample_table).
Proof.
  assert (Hdb : db sample_table = Some (connection sample_table)) by evaluated.
  assert (Hj : journal (connection sample_table) = None) by evaluated.
  assert (Ht : nodes_table (connection sample_table)
                 (table_rows sample_table "nodes")) by evaluated.
  exact (commit_keeps_the_write sample_table _ _ 99 1 "" None 0 "Z" Hdb Hj Ht).
Defined.

Lemma destructor_rolls_back_witness :
  destroy (snd (putnode 99 1 "" None 0 "Z" (begin sample_table))) ∅
  = <[dbfile sample_table := image (connection sample_table)]> ∅.
Proof.
  assert (Hdb : db sample_table = Some (connection sample_table)) by evaluated.
  assert (Hj : journal (connection sample_table) = None) by evaluated.
  assert (Ht : nodes_table (connection sample_table)
                 (table_rows sample_table "nodes")) by evaluated.
  exact (proj1 (destructor_rolls_back sample_table _ _
                  99 1 "" None 0 "Z" ∅ Hdb Hj Ht)).
Defined.

Lemma reopen_finds_the_committed_image_witness :
  exists t' fs',
    open sample_access (destroy sample_table ∅) 5%nat "alice" "K"
    = (Some t', fs', 5%nat) /\
    db t' = Some {| image := committed (connection sample_table);
                    journal := None |} /\
    pStmt t' = None.
Proof.
  assert (Hdb : db sample_table = Some (connection sample_table)) by evaluated.
  assert (Hfile : dbfile sample_table = file_of sample_access "alice")
    by evaluated.
  assert (Hc : complete (committed (connection sample_table)))
    by (repeat split; vm_compute; discriminate).
  exact (reopen_finds_the_committed_image (H := sample_externals)
           sample_access "alice" "K" 5%nat sample_table _ ∅ Hdb Hfile Hc).
Defined.

Lemma remove_then_open_starts_afresh_witness :
  snd (remove sample_table ∅) !! file_of sample_access "alice" = None.
Proof.
  assert (Hdb : db sample_table = Some (connection sample_table)) by evaluated.
  assert (Hfile : dbfile sample_table = file_of sample_access "alice")
    by evaluated.
  exact (proj1 (remove_then_open_starts_afresh (H := sample_externals)
                  sample_access "alice" "K" 5%nat sample_table _ ∅ Hdb Hfile)).
Defined.

Lemma open_keeps_existing_tables_witness :
  exists t c fs' g',
    open sample_access (destroy sample_table ∅) 5%nat "alice" "K"
    = (Some t, fs', g') /\
    db t = Some c /\
    image c !! "nodes" = Some (nodes_def (table_rows sample_table "nodes")).
Proof.
  assert (Hn : stored (destroy sample_table ∅) (file_of sample_access "alice")
               !! "nodes"
               = Some (nodes_def (table_rows sample_table "nodes")))
    by evaluated.
  assert (Hcache : only_cache_tables
                     (stored (destroy sample_table ∅)
                             (file_of sample_access "alice")) = true)
    by evaluated.
  exact (open_keeps_existing_tables (H := sample_externals)
           sample_access _ 5%nat "alice" "K" "nodes" _ Hcache Hn).
Defined.

Lemma putnode_counts_one_more_child_witness :
  snd (getnumchildfilesquery 10 0 (snd (putnode 99 10 "f3" None 0 "Z" sample_table)))
  = snd (getnumchildfilesquery 10 0 sample_table) + 1.
Proof.
  assert (Hdb : db sample_table = Some (connection sample_table)) by evaluated.
  assert (Ht : nodes_table (connection sample_table)
                 (table_rows sample_table "nodes")) by evaluated.
  assert (Habs : absent (to_int64 99) (table_rows sample_table "nodes"))
    by no_such_row.
  assert (Hsmall : Z.of_nat (List.length (table_rows sample_table "nodes")) + 1
                   < 2^31) by evaluated.
  exact (proj1 (proj2 (putnode_counts_one_more_child sample_table _ _
                         99 10 "f3" None 0 "Z" Hdb Ht Habs Hsmall))).
Defined.

Lemma putnode_getnodebyfingerprint_witness :
  getnodebyfingerprint "f3" "" (snd (putnode 99 10 "f3" None 0 "Z" sample_table))
  = (true, "Z").
Proof.
  assert (Hdb : db sample_table = Some (connection sample_table)) by evaluated.
  assert (Ht : nodes_table (connection sample_table)
                 (table_rows sample_table "nodes")) by evaluated.
  assert (Hnone : Forall (fun r => fingerprint_is "f3" r = false)
                    (table_rows sample_table "nodes"))
    by (vm_compute; repeat constructor).
  exact (putnode_getnodebyfingerprint sample_table _ _
           99 10 "f3" None 0 "Z" "" Hdb Ht Hnone).
Defined.

Lemma node_writes_touch_one_handle_witness :
  getnodebyhandle 12 "" (snd (delnode 11 sample_table))
  = getnodebyhandle 12 "" sample_table.
Proof.
  assert (Hdb : db sample_table = Some (connection sample_table)) by evaluated.
  assert (Ht : nodes_table (connection sample_table)
                 (table_rows sample_table "nodes")) by evaluated.
  assert (H11 : is_handle 11) by small_handle.
  assert (H12 : is_handle 12) by small_handle.
  assert (Hne : (11 : Z) <> 12) by discriminate.
  exact (proj1 (proj2 (node_writes_touch_one_handle sample_table _ _
                         11 12 1 "" None 0 "Z" "" Hdb Ht) H11 H12 Hne)).
Defined.

Lemma rewind_replaces_the_cursor_witness :
  pStmt (rewinduser bare_table) = None.
Proof.
  assert (Hdb : db bare_table = Some {| image := ∅; journal := None |})
    by reflexivity.
  assert (Hnone : image {| image := ∅; journal := None |} !! "users"
                  = @None table) by evaluated.
  exact (proj1 (proj2 (rewind_replaces_the_cursor bare_table
                         (SELECT "pcr" "pcrs" None) None
                         (SELECT "user" "users" None) None)
                  _ "user" "users" None "" 0 Hdb eq_refl Hnone)).
Defined.

Lemma children_cursor_enumerates_the_children_witness :
  fst (drain_handles 4 (rewindhandleschildren 10 sample_table)) = [11; 12].
Proof.
  assert (Hdb : db sample_table = Some (connection sample_table)) by evaluated.
  assert (Ht : nodes_table (connection sample_table)
                 (table_rows sample_table "nodes")) by evaluated.
  assert (Hinc : increasing (table_rows sample_table "nodes"))
    by in_rowid_order.
  assert (Hfuel : (List.length (table_rows sample_table "nodes") < 4)%nat)
    by (vm_compute; lia).
  rewrite (children_cursor_enumerates_the_children sample_table _ _ 10 4
             Hdb Ht Hinc Hfuel).
  evaluated.
Defined.

Lemma children_cursor_returns_the_handle_put_witness :
  In (2^64 - 1)
     (fst (drain_handles 5
             (rewindhandleschildren 10
                (snd (putnode (2^64 - 1) 10 "f3" None 0 "Z" sample_table))))).
Proof.
  assert (Hdb : db sample_table = Some (connection sample_table)) by evaluated.
  assert (Ht : nodes_table (connection sample_table)
                 (table_rows sample_table "nodes")) by evaluated.
  assert (Hinc : increasing (table_rows sample_table "nodes"))
    by in_rowid_order.
  assert (Hh : is_handle (2^64 - 1)) by small_handle.
  assert (Hfuel : (S (List.length (table_rows sample_table "nodes")) < 5)%nat)
    by (vm_compute; lia).
  exact (children_cursor_returns_the_handle_put sample_table _ _
           (2^64 - 1) 10 "f3" None 0 "Z" 5 Hdb Ht Hinc Hh Hfuel).
Defined.

Lemma unscoped_node_cursors_witness :
  fst (drain_handles 4 (rewindhandlesencryptednodes sample_table)) = [12].
Proof.
  assert (Hdb : db sample_table = Some (connection sample_table)) by evaluated.
  assert (Ht : nodes_table (connection sample_table)
                 (table_rows sample_table "nodes")) by evaluated.
  assert (Hinc : increasing (table_rows sample_table "nodes"))
    by in_rowid_order.
  assert (Hfuel : (List.length (table_rows sample_table "nodes") < 4)%nat)
    by (vm_compute; lia).
  rewrite (proj1 (unscoped_node_cursors sample_table _ _ 4 Hdb Ht Hinc Hfuel)).
  evaluated.
Defined.

Lemma user_and_pcr_cursors_enumerate_all_witness :
  fst (drain 2 (rewindpcr sample_table)) = ["P"].
Proof.
  assert (Hdb : db sample_table = Some (connection sample_table)) by evaluated.
  assert (Ht : pcrs_table (connection sample_table)
                 (table_rows sample_table "pcrs")) by evaluated.
  assert (Hinc : increasing (table_rows sample_table "pcrs"))
    by in_rowid_order.
  assert (Hfuel : (List.length (table_rows sample_table "pcrs") < 2)%nat)
    by (vm_compute; lia).
  rewrite (proj2 (user_and_pcr_cursors_enumerate_all sample_table _
                    [] (table_rows sample_table "pcrs") 2 Hdb) Ht Hinc Hfuel).
  evaluated.
Defined.

Lemma putuser_is_an_upsert_witness :
  In "V" (fst (drain 3 (rewinduser (snd (putuser 9 "V" sample_table))))).
Proof.
  assert (Hdb : db sample_table = Some (connection sample_table)) by evaluated.
  assert (Ht : users_table (connection sample_table)
                 (table_rows sample_table "users")) by evaluated.
  assert (Hinc : increasing (table_rows sample_table "users"))
    by in_rowid_order.
  assert (Hfuel : (S (List.length (table_rows sample_table "users")) < 3)%nat)
    by (vm_compute; lia).
  exact (proj1 (putuser_is_an_upsert sample_table _ _ 9 "V" "W" 3
                  Hdb Ht Hinc Hfuel)).
Defined.

Lemma put_then_delete_restores_witness :
  delnode 99 (snd (putnode 99 1 "" None 0 "Z" sample_table))
  = (true, sample_table).
Proof.
  assert (Hdb : db sample_table = Some (connection sample_table)) by evaluated.
  assert (Ht : nodes_table (connection sample_table)
                 (table_rows sample_table "nodes")) by evaluated.
  assert (Habs : absent (to_int64 99) (table_rows sample_table "nodes"))
    by no_such_row.
  exact (proj1 (put_then_delete_restores sample_table _ 99 1 "" None 0 "Z" "P"
                  Hdb) _ Ht Habs).
Defined.

Lemma readhkey_fails_on_a_missing_slot_witness :
  readhkey (snd (putrootnode 4 "k" keyless_table))
  = (false, set_hkey (snd (putrootnode 4 "k" keyless_table))
              {| size := 4; written := "k" |}).
Proof.
  set (t := snd (putrootnode 4 "k" keyless_table)).
  assert (Hdb : db t = Some (connection t)) by evaluated.
  assert (Ht : init_table (connection t) (table_rows t "init")) by evaluated.
  assert (H4 : getrootnode 4 "" t = (true, "k")) by evaluated.
  assert (H5 : fst (getrootnode 5 "" t) = false) by evaluated.
  assert (Hd : decodes_within "k") by (vm_compute; lia).
  exact (proj1 (proj2 (readhkey_fails_on_a_missing_slot t _ _ Hdb Ht)
                  "k" H4 H5 Hd)).
Defined.

Lemma sync_token_slot_is_separate_witness :
  getscsn "" (snd (putscsn "next" sample_table)) = (true, "next") /\
  getrootnode 4 "" (snd (putscsn "next" sample_table))
  = getrootnode 4 "" sample_table.
Proof.
  assert (Hdb : db sample_table = Some (connection sample_table)) by evaluated.
  assert (Ht : init_table (connection sample_table)
                 (table_rows sample_table "init")) by evaluated.
  destruct (sync_token_slot_is_separate sample_table _ _ "next" "" 4 Hdb Ht)
    as (_ & G1 & _ & G2).
  split; [exact G1|]. apply G2. discriminate.
Defined.

Lemma write_to_a_missing_table_changes_nothing_witness :
  putnode 1 2 "f" None 0 "Z" bare_table = (false, bare_table).
Proof.
  assert (Hdb : db bare_table = Some {| image := ∅; journal := None |})
    by reflexivity.
  assert (Hnone : image {| image := ∅; journal := None |} !! "nodes"
                  = @None table) by evaluated.
  exact (proj1 (proj1 (write_to_a_missing_table_changes_nothing bare_table _
                         1 2 "f" None 0 "Z" 0 Hdb) Hnone)).
Defined.

Lemma counters_reset_the_count_on_failure_witness :
  snd (getnumchildrenquery 10 7 bare_table) = 0.
Proof.
  assert (Hdb : db bare_table <> None) by discriminate.
  assert (Hfail : fst (getnumchildrenquery 10 7 bare_table) = false)
    by evaluated.
  exact (proj1 (proj2 (counters_reset_the_count_on_failure bare_table 10 7) Hdb)
           Hfail).
Defined.
